(** * Reddit sentiment helpers: the aggregation and pacing layer

    A shallow embedding of [example/stock_agent_drop_in.py] (class
    [RedditSentimentClient]) and [example/stock_sentiment_scraper.py]
    (class [StockSentimentScraper]), and the properties of the thin layer
    the two files own: tagging, aggregation, failure isolation and pacing.

    Modelling conventions.
    - The YARS miner is an opaque, stateful collaborator: each of its three
      operations maps its arguments and the current outside state to an
      outcome (a value, or a raised exception) and a new outside state.
      Values have the annotated types: a search or a fetch returns a list
      of posts, a post is a dict.
    - Dicts are objects: the miner hands them out by identity, and
      [search_ticker] writes its tags into the object it was handed.  The
      store maps an object identity to the current contents of the dict; the
      initial store holds, for each object, the contents it has when the
      miner hands it out.  The miner may hand out one object several times;
      it is assumed not to write to objects it has handed out.
    - Lists built and returned by the code are values ([list loc]); nothing
      in the two files mutates a list it has handed out.
    - Every method records in a log the collaborator calls it issues (with
      their outcomes) and the sleeps it performs.  [print] is not modelled.
    - [60.0 / rate_limit] is a float quotient in the source; it is modelled
      by the exact rational quotient.
    - [except Exception] catches whatever the miner raises, so a raised
      exception is an ordinary outcome here and no method of the model has
      an exceptional exit.
    - The keys of [by_subreddit] are field values.  A Python dict compares
      keys with [==], which is equality of values on strings but identifies
      [True] with [1]; the counts of single keys are therefore stated for
      posts whose [subreddit] is a string, as the tags of [search_ticker]
      are.
    - [_init_yars] runs on [sys.path] and on an abstract import attempt,
      whose success may depend on [sys.path] and on what earlier attempts
      left behind. *)

From Stdlib Require Import ZArith QArith.
From stdpp Require Import base option list strings gmap fin_maps functions.

Local Open Scope Z_scope.
Local Open Scope nat_scope.
Local Open Scope string_scope.
Local Open Scope list_scope.

(** ** Python values and objects *)

(** The field values a post can carry, as far as this layer looks at them. *)
Inductive pyval : Type :=
  | PyNone
  | PyBool (b : bool)
  | PyInt (z : Z)
  | PyStr (s : string).

#[global] Instance pyval_eq_dec : EqDecision pyval.
Proof. solve_decision. Defined.

Definition pyval_encode (v : pyval) : unit + bool + Z + string :=
  match v with
  | PyNone => inl (inl (inl tt))
  | PyBool b => inl (inl (inr b))
  | PyInt z => inl (inr z)
  | PyStr s => inr s
  end.

Definition pyval_decode (x : unit + bool + Z + string) : pyval :=
  match x with
  | inl (inl (inl _)) => PyNone
  | inl (inl (inr b)) => PyBool b
  | inl (inr z) => PyInt z
  | inr s => PyStr s
  end.

#[global] Instance pyval_countable : Countable pyval.
Proof.
  apply (inj_countable' pyval_encode pyval_decode).
  intros []; reflexivity.
Defined.

(** A post: a dict from field names to values. *)
Abbreviation Post := (gmap string pyval).

(** Object identity of a dict handed out by the miner. *)
Abbreviation loc := nat.

(** The store: current contents of every dict object. *)
Abbreviation heap := (loc -> Post).

(** [post[key] = value] *)
Definition setitem (post : loc) (key : string) (value : pyval) (h : heap) : heap :=
  <[post := <[key := value]> (h post)]> h.

(** What a call into the collaborator does: return a value or raise. *)
Inductive outcome (A : Type) : Type :=
  | Returns (a : A)
  | Raises.
Arguments Returns {A} a.
Arguments Raises {A}.

(** ** The outside world: the YARS miner and the clock *)

Record Outside (CS : Type) : Type := {
  (* miner.search_subreddit(subreddit, query, limit=..., sort=...) *)
  search_subreddit : string -> string -> Z -> string -> CS -> outcome (list loc) * CS;
  (* miner.fetch_subreddit_posts(subreddit, limit=, category=, time_filter=) *)
  fetch_subreddit_posts : string -> Z -> string -> string -> CS -> outcome (list loc) * CS;
  (* miner.scrape_post_details(permalink) *)
  scrape_post_details : string -> CS -> outcome (option loc) * CS;
  (* datetime.now().isoformat() *)
  now_isoformat : CS -> string
}.
Arguments search_subreddit {CS} _ _ _ _ _ _.
Arguments fetch_subreddit_posts {CS} _ _ _ _ _ _.
Arguments scrape_post_details {CS} _ _ _.
Arguments now_isoformat {CS} _ _.

(** ** The log of observable actions *)

Inductive Event : Type :=
  | EvSearch (subreddit query : string) (limit : Z) (sort : string)
             (r : outcome (list loc))
  | EvFetch (subreddit : string) (limit : Z) (category time_filter : string)
            (r : outcome (list loc))
  | EvDetails (permalink : string) (r : outcome (option loc))
  (* time.sleep(random.uniform(lo, hi)) *)
  | EvSleep (lo hi : Q).

(** A call into the collaborator (as opposed to a sleep). *)
Definition is_call (e : Event) : bool :=
  match e with
  | EvSleep _ _ => false
  | _ => true
  end.

(** A call into the collaborator that returned normally. *)
Definition is_returned_call (e : Event) : bool :=
  match e with
  | EvSearch _ _ _ _ (Returns _) => true
  | EvFetch _ _ _ _ (Returns _) => true
  | EvDetails _ (Returns _) => true
  | _ => false
  end.

Definition is_delay (e : Event) : bool :=
  match e with
  | EvSleep _ _ => true
  | _ => false
  end.

(** Number of events of a log that satisfy [f]. *)
Definition count (f : Event -> bool) (log : list Event) : nat :=
  length (List.filter f log).

(** The subreddit of each [search_subreddit] call of a log, in call order. *)
Definition searched (log : list Event) : list string :=
  omap (fun e => match e with
                 | EvSearch sub _ _ _ _ => Some sub
                 | _ => None
                 end) log.

(** The post objects a single event handed over, each paired with the
    subreddit whose search returned it. *)
Definition sourced (e : Event) : list (string * loc) :=
  match e with
  | EvSearch sub _ _ _ (Returns posts) => (fun p => (sub, p)) <$> posts
  | _ => []
  end.

(** All post objects the searches of a log returned, in order, each with the
    subreddit of the call that returned it. *)
Definition provenance (log : list Event) : list (string * loc) :=
  log ≫= sourced.

(** Some [fetch_subreddit_posts] call of the log, for the subreddit [sub],
    returned at least one post. *)
Definition yielded (sub : string) (log : list Event) : Prop :=
  exists limit category time_filter posts,
    EvFetch sub limit category time_filter (Returns posts) ∈ log /\ posts <> [].

(** ** State, log and sequencing *)

Record State (CS : Type) : Type := mkState {
  st_out : CS;
  st_heap : heap
}.
Arguments mkState {CS} _ _.
Arguments st_out {CS} _.
Arguments st_heap {CS} _.

(** A computation: from a state to a result, a new state and the events it
    emitted. *)
Definition M (CS A : Type) : Type := State CS -> A * State CS * list Event.

Definition ret {CS A} (a : A) : M CS A := fun s => (a, s, []).

Definition bind {CS A B} (m : M CS A) (k : A -> M CS B) : M CS B :=
  fun s =>
    let '(a, s1, log1) := m s in
    let '(b, s2, log2) := k a s1 in
    (b, s2, log1 ++ log2).

Notation "x <- m ;; k" := (bind m (fun x => k))
  (at level 100, m at next level, right associativity).
Notation "m ;;; k" := (bind m (fun _ => k))
  (at level 100, right associativity).

(** Emit one event. *)
Definition emit {CS} (e : Event) : M CS unit := fun s => (tt, s, [e]).

(** Read the store. *)
Definition get_heap {CS} : M CS heap := fun s => (st_heap s, s, []).

(** Write a key of a dict object. *)
Definition py_setitem {CS} (post : loc) (key : string) (value : pyval) : M CS unit :=
  fun s => (tt, mkState (st_out s) (setitem post key value (st_heap s)), []).

(** Python truthiness of a list. *)
Definition truthy {A} (l : list A) : bool :=
  match l with
  | [] => false
  | _ => true
  end.

(** ** Calls into the collaborator *)

Section Calls.
Context {CS : Type} (miner : Outside CS).

(** [self.miner.search_subreddit(sub, query, limit=limit, sort=sort)] *)
Definition call_search (sub query : string) (limit : Z) (sort : string)
  : M CS (outcome (list loc)) :=
  fun s =>
    let '(r, cs) := search_subreddit miner sub query limit sort (st_out s) in
    (r, mkState cs (st_heap s), [EvSearch sub query limit sort r]).

(** [self.miner.fetch_subreddit_posts(sub, limit=, category=, time_filter=)] *)
Definition call_fetch (sub : string) (limit : Z) (category time_filter : string)
  : M CS (outcome (list loc)) :=
  fun s =>
    let '(r, cs) := fetch_subreddit_posts miner sub limit category time_filter (st_out s) in
    (r, mkState cs (st_heap s), [EvFetch sub limit category time_filter r]).

(** [self.miner.scrape_post_details(permalink)] *)
Definition call_details (permalink : string) : M CS (outcome (option loc)) :=
  fun s =>
    let '(r, cs) := scrape_post_details miner permalink (st_out s) in
    (r, mkState cs (st_heap s), [EvDetails permalink r]).

(** [datetime.now().isoformat()] *)
Definition datetime_now : M CS string :=
  fun s => (now_isoformat miner (st_out s), s, []).
End Calls.

(** ** [stock_agent_drop_in.py]: class [RedditSentimentClient] *)

Module RedditSentimentClient.

(** The [social_sentiment] configuration dict.  A field is [None] when the
    key is absent.  [reddit_proxy] may be present with the value [None]. *)
Record Config : Type := {
  cfg_enabled : option bool;
  cfg_reddit_enabled : option bool;
  cfg_reddit_proxy : option (option string);
  cfg_subreddits : option (list string);
  cfg_rate_limit_per_minute : option Z
}.

(** The attributes [__init__] sets on [self] (the miner is [Outside]). *)
Record Self : Type := {
  config : Config;
  enabled : bool;
  subreddits : list string;
  rate_limit : Z;
  min_delay : Q;
  proxy : option string
}.

(** [__init__], for a YARS that imports; [getenv] is
    [os.getenv('REDDIT_PROXY')]. *)
Definition __init__ (getenv : option string) (config : Config) : Self :=
  let rate_limit := default 30%Z (cfg_rate_limit_per_minute config) in
  {| config := config;
     enabled := default true (cfg_reddit_enabled config);
     subreddits := default ["wallstreetbets"; "stocks"] (cfg_subreddits config);
     rate_limit := rate_limit;
     min_delay := if (0 <? rate_limit)%Z then (60 / inject_Z rate_limit)%Q else 2%Q;
     proxy := default getenv (cfg_reddit_proxy config) |}.

(** One dict of [get_sentiment_data]'s result. *)
Record TickerReport : Type := {
  ticker : string;
  timestamp : string;
  total_mentions : nat;
  posts : list loc;
  by_subreddit : gmap pyval nat
}.

(** The counting loop of [get_sentiment_data], on the [by_subreddit] dict
    of the report under construction:
    [sub = post.get('subreddit', 'unknown')], then
    [if sub not in d: d[sub] = 0], then [d[sub] += 1]. *)
Fixpoint count_by_subreddit (h : heap) (posts : list loc) (d : gmap pyval nat)
  : gmap pyval nat :=
  match posts with
  | [] => d
  | post :: rest =>
      let sub := default (PyStr "unknown") (h post !! "subreddit") in
      let d0 := match d !! sub with None => <[sub := 0]> d | Some _ => d end in
      count_by_subreddit h rest (<[sub := default 0 (d0 !! sub) + 1]> d0)
  end.

Section Methods.
Context {CS : Type} (miner : Outside CS) (self : Self).

(** [time.sleep(random.uniform(self.min_delay, self.min_delay * 1.5))] *)
Definition _rate_limit_delay : M CS unit :=
  emit (EvSleep (min_delay self) (min_delay self * (3 # 2))%Q).

Definition get_subreddit_posts (subreddit : string) (limit : Z)
  (category time_filter : string) : M CS (list loc) :=
  if negb (enabled self) then ret []
  else
    r <- call_fetch miner subreddit limit category time_filter ;;
    match r with
    | Returns posts => _rate_limit_delay ;;; ret posts
    | Raises => ret []
    end.

(** The metadata loop: [post['subreddit'] = sub] and
    [post['ticker_searched'] = ticker] for each post. *)
Fixpoint add_metadata (sub ticker : string) (posts : list loc) : M CS unit :=
  match posts with
  | [] => ret tt
  | post :: rest =>
      py_setitem post "subreddit" (PyStr sub) ;;;
      py_setitem post "ticker_searched" (PyStr ticker) ;;;
      add_metadata sub ticker rest
  end.

(** The [for sub in subreddits] loop of [search_ticker]. *)
Fixpoint search_loop (ticker : string) (limit_per_subreddit : Z)
  (subs : list string) (all_posts : list loc) : M CS (list loc) :=
  match subs with
  | [] => ret all_posts
  | sub :: rest =>
      r <- call_search miner sub ticker limit_per_subreddit "relevance" ;;
      match r with
      | Returns posts =>
          all_posts' <- (if truthy posts
                         then add_metadata sub ticker posts ;;;
                              ret (all_posts ++ posts)
                         else ret all_posts) ;;
          _rate_limit_delay ;;;
          search_loop ticker limit_per_subreddit rest all_posts'
      | Raises => search_loop ticker limit_per_subreddit rest all_posts
      end
  end.

Definition search_ticker (ticker : string) (subs : option (list string))
  (limit_per_subreddit : Z) : M CS (list loc) :=
  if negb (enabled self) then ret []
  else
    let subs := match subs with
                | None => subreddits self
                | Some l => l
                end in
    search_loop ticker limit_per_subreddit subs [].

Definition get_post_details (permalink : string) : M CS (option loc) :=
  if negb (enabled self) then ret None
  else
    r <- call_details miner permalink ;;
    match r with
    | Returns details => _rate_limit_delay ;;; ret details
    | Raises => ret None
    end.

(** The loop of [get_multi_subreddit_posts]; [time_filter] keeps the
    default ["day"] of [get_subreddit_posts]. *)
Fixpoint multi_loop (limit_per_sub : Z) (category : string)
  (subs : list string) (results : gmap string (list loc))
  : M CS (gmap string (list loc)) :=
  match subs with
  | [] => ret results
  | sub :: rest =>
      posts <- get_subreddit_posts sub limit_per_sub category "day" ;;
      multi_loop limit_per_sub category rest
        (if truthy posts then <[sub := posts]> results else results)
  end.

Definition get_multi_subreddit_posts (subs : option (list string))
  (limit_per_sub : Z) (category : string) : M CS (gmap string (list loc)) :=
  if negb (enabled self) then ret ∅
  else
    let subs := match subs with
                | None => subreddits self
                | Some l => l
                end in
    multi_loop limit_per_sub category subs ∅.

(** The loop of [get_sentiment_data].  The report's [by_subreddit] dict
    is known to nobody else while it is filled, so the report is built
    with the counts in place. *)
Fixpoint sentiment_loop (limit_per_ticker : Z) (tickers : list string)
  (results : gmap string TickerReport) : M CS (gmap string TickerReport) :=
  match tickers with
  | [] => ret results
  | t :: rest =>
      ps <- search_ticker t None limit_per_ticker ;;
      now <- datetime_now miner ;;
      h <- get_heap ;;
      sentiment_loop limit_per_ticker rest
        (<[t := {| ticker := t;
                   timestamp := now;
                   total_mentions := length ps;
                   posts := ps;
                   by_subreddit := count_by_subreddit h ps ∅ |}]> results)
  end.

Definition get_sentiment_data (tickers : list string) (limit_per_ticker : Z)
  : M CS (gmap string TickerReport) :=
  if negb (enabled self) then ret ∅
  else sentiment_loop limit_per_ticker tickers ∅.
End Methods.

(** [_init_yars].  Whether [from yars.yars import YARS] succeeds depends on
    [sys.path] and on the state of the import system, which a failed attempt
    may change: [import_yars] is that attempt, on an import state [IS].  The
    construction [YARS(proxy=..., timeout=15, random_user_agent=True)] that
    follows a successful import is taken to return. *)
Section InitYars.
Context {IS : Type} (import_yars : list string -> IS -> bool * IS).

(** The [for location in yars_locations] loop, on [sys.path] and the import
    state.  It returns the location reported as loaded, or [None] when the
    loop ends and [ImportError] is raised, with the final [sys.path], the
    final import state and the outcome of each import attempt. *)
Fixpoint init_yars_loop (yars_locations : list string) (sys_path : list string)
  (st : IS) : option string * list string * IS * list (string * bool) :=
  match yars_locations with
  | [] => (None, sys_path, st, [])
  | location :: rest =>
      let sys_path' := if bool_decide (location ∈ sys_path)
                       then sys_path
                       else location :: sys_path in
      let '(ok, st') := import_yars sys_path' st in
      if ok then (Some location, sys_path', st', [(location, true)])
      else
        let '(r, p, st'', tried) := init_yars_loop rest sys_path' st' in
        (r, p, st'', (location, false) :: tried)
  end.

(** [parent_src] is [str(Path(__file__).parent.parent / "src")] and
    [home_src] is [str(Path.home() / "Projects" / "yars-stockagent" / "src")]. *)
Definition _init_yars (parent_src home_src : string) (sys_path : list string)
  (st : IS) : option string * list string * IS * list (string * bool) :=
  init_yars_loop [parent_src; home_src; "yars"] sys_path st.
End InitYars.

End RedditSentimentClient.

(** ** [stock_sentiment_scraper.py]: class [StockSentimentScraper] *)

Module StockSentimentScraper.

Record Self : Type := {
  proxy : option string;
  verbose : bool;
  stock_subreddits : list string
}.

Definition __init__ (proxy : option string) (verbose : bool) : Self :=
  {| proxy := proxy;
     verbose := verbose;
     stock_subreddits :=
       ["wallstreetbets"; "stocks"; "investing"; "stockmarket"; "options"] |}.

(** The dict [scrape_ticker_sentiment] returns. *)
Record Results : Type := {
  ticker : string;
  timestamp : string;
  total_posts : nat;
  by_subreddit : gmap string nat;
  all_posts : list Post
}.

(** [{**post, "subreddit": subreddit, "ticker": ticker}]: a new dict. *)
Definition tagged (subreddit ticker : string) (post : Post) : Post :=
  <["ticker" := PyStr ticker]> (<["subreddit" := PyStr subreddit]> post).

(** The three updates of the [if posts:] branch. *)
Definition record_posts (h : heap) (subreddit ticker : string)
  (ps : list loc) (results : Results) : Results :=
  {| ticker := StockSentimentScraper.ticker results;
     timestamp := timestamp results;
     total_posts := total_posts results + length ps;
     by_subreddit := <[subreddit := length ps]> (by_subreddit results);
     all_posts := all_posts results ++ ((fun p => tagged subreddit ticker (h p)) <$> ps) |}.

Section Methods.
Context {CS : Type} (miner : Outside CS) (self : Self).

Fixpoint scrape_loop (ticker : string) (max_posts : Z) (subs : list string)
  (results : Results) : M CS Results :=
  match subs with
  | [] => ret results
  | subreddit :: rest =>
      r <- call_search miner subreddit ticker max_posts "relevance" ;;
      match r with
      | Returns ps =>
          h <- get_heap ;;
          let results' := if truthy ps
                          then record_posts h subreddit ticker ps results
                          else results in
          emit (EvSleep 2 4) ;;;
          scrape_loop ticker max_posts rest results'
      | Raises => scrape_loop ticker max_posts rest results
      end
  end.

Definition scrape_ticker_sentiment (ticker : string) (max_posts : Z)
  : M CS Results :=
  now <- datetime_now miner ;;
  scrape_loop ticker max_posts (stock_subreddits self)
    {| ticker := ticker;
       timestamp := now;
       total_posts := 0;
       by_subreddit := ∅;
       all_posts := [] |}.
End Methods.

(** The dict [scrape_multiple_tickers] returns: its keys are [timestamp]
    and [tickers]. *)
Record AllResults : Type := {
  all_timestamp : string;
  tickers : gmap string Results
}.

Section Batch.
Context {CS : Type} (miner : Outside CS) (self : Self).

(** The [for ticker in tickers] loop of [scrape_multiple_tickers]. *)
Fixpoint multiple_loop (max_posts_per_ticker : Z) (ts : list string)
  (all_results : AllResults) : M CS AllResults :=
  match ts with
  | [] => ret all_results
  | t :: rest =>
      ticker_data <- scrape_ticker_sentiment miner self t max_posts_per_ticker ;;
      let all_results' :=
        {| all_timestamp := all_timestamp all_results;
           tickers := <[t := ticker_data]> (tickers all_results) |} in
      emit (EvSleep 3 6) ;;;
      multiple_loop max_posts_per_ticker rest all_results'
  end.

Definition scrape_multiple_tickers (ts : list string)
  (max_posts_per_ticker : Z) : M CS AllResults :=
  now <- datetime_now miner ;;
  multiple_loop max_posts_per_ticker ts
    {| all_timestamp := now; tickers := ∅ |}.

Definition scrape_hot_stocks (subreddit : string) (limit : Z) : M CS (list loc) :=
  r <- call_fetch miner subreddit limit "hot" "day" ;;
  match r with
  | Returns posts => ret posts
  | Raises => ret []
  end.
End Batch.

End StockSentimentScraper.

(** ** Reading a run *)

Section Runs.
Context {CS A : Type}.

(** The value a run returns, the state it ends in, the events it emitted. *)
Definition result (x : A * State CS * list Event) : A := x.1.1.
Definition final (x : A * State CS * list Event) : State CS := x.1.2.
Definition log (x : A * State CS * list Event) : list Event := x.2.

(** A run preceded by the events [evs]. *)
Definition after (evs : list Event) (x : A * State CS * list Event)
  : A * State CS * list Event :=
  (x.1, evs ++ x.2).
End Runs.

(** The store after the metadata loop of [search_ticker] ran over [posts]. *)
Definition tag_all (sub ticker : string) (posts : list loc) (h : heap) : heap :=
  foldl (fun h post =>
           setitem post "ticker_searched" (PyStr ticker)
             (setitem post "subreddit" (PyStr sub) h))
        h posts.

(** Sum of the values of a dict of counts. *)
Definition sum_counts `{Countable K} (d : gmap K nat) : nat :=
  map_fold (fun _ n acc => n + acc) 0 d.

(** ** The properties under study *)

(** A log in which every collaborator call is paired with one delay. *)
Definition paced_per_call (l : list Event) : Prop :=
  count is_delay l = count is_call l.

(** A log in which every collaborator call that returned is paired with
    one delay. *)
Definition paced_per_return (l : list Event) : Prop :=
  count is_delay l = count is_returned_call l.

(** The shape of a log of the facade: a call that returned is followed at
    once by the sleep of [_rate_limit_delay]; a call that raised is not. *)
Inductive paced (lo hi : Q) : list Event -> Prop :=
  | paced_nil : paced lo hi []
  | paced_returned e l :
      is_returned_call e = true -> paced lo hi l ->
      paced lo hi (e :: EvSleep lo hi :: l)
  | paced_raised e l :
      is_call e = true -> is_returned_call e = false -> paced lo hi l ->
      paced lo hi (e :: l).

(** Every field of the dict [p] in [h] is still there, with its value,
    in [h']. *)
Definition fields_preserved (h h' : heap) (p : loc) : Prop :=
  forall k v, h p !! k = Some v -> h' p !! k = Some v.

(** The dict [new] agrees with the dict [old] on every field other than
    the two tags [tag1] and [tag2]. *)
Definition other_fields_preserved (tag1 tag2 : string) (old new : Post) : Prop :=
  forall k, k <> tag1 -> k <> tag2 -> new !! k = old !! k.



(** The subreddit of the last search that returned the post object [p],
    in a list of returned objects with the subreddits of their searches, in
    call order; [None] when no search returned [p]. *)
Fixpoint last_source (prov : list (string * loc)) (p : loc) : option string :=
  match prov with
  | [] => None
  | (sub, q) :: rest =>
      match last_source rest p with
      | Some later => Some later
      | None => if decide (q = p) then Some sub else None
      end
  end.

(** [srcs] runs through the subreddits of [subs] in order, each repeated
    some number of times, possibly none. *)
Definition in_order_of (subs srcs : list string) : Prop :=
  exists ns : list nat,
    length ns = length subs /\ srcs = mjoin (zip_with replicate ns subs).

(** A client on which no public fetch method calls the collaborator, sleeps
    or returns anything. *)
Definition fetches_nothing {CS} (miner : Outside CS)
  (self : RedditSentimentClient.Self) (s : State CS) : Prop :=
  (forall sub limit category time_filter,
     RedditSentimentClient.get_subreddit_posts miner self sub limit category time_filter s
     = ([], s, [])) /\
  (forall ticker subs limit,
     RedditSentimentClient.search_ticker miner self ticker subs limit s = ([], s, [])) /\
  (forall permalink,
     RedditSentimentClient.get_post_details miner self permalink s = (None, s, [])) /\
  (forall subs limit category,
     RedditSentimentClient.get_multi_subreddit_posts miner self subs limit category s
     = (∅, s, [])) /\
  (forall tickers limit,
     RedditSentimentClient.get_sentiment_data miner self tickers limit s = (∅, s, [])).

(** The sleep of [_rate_limit_delay]: its bounds and its event. *)
Definition lo (self : RedditSentimentClient.Self) : Q :=
  RedditSentimentClient.min_delay self.
Definition hi (self : RedditSentimentClient.Self) : Q :=
  (RedditSentimentClient.min_delay self * (3 # 2))%Q.
Definition delay_event (self : RedditSentimentClient.Self) : Event :=
  EvSleep (lo self) (hi self).

(** The report [get_sentiment_data] builds from a run of [search_ticker]. *)
Definition report_of {CS} (miner : Outside CS) (t : string)
  (r : list loc * State CS * list Event) : RedditSentimentClient.TickerReport :=
  {| RedditSentimentClient.ticker := t;
     RedditSentimentClient.timestamp := now_isoformat miner (st_out (final r));
     RedditSentimentClient.total_mentions := length (result r);
     RedditSentimentClient.posts := result r;
     RedditSentimentClient.by_subreddit :=
       RedditSentimentClient.count_by_subreddit (st_heap (final r)) (result r) ∅ |}.

(** The counts of a ticker report agree with its posts. *)
Definition report_consistent (rep : RedditSentimentClient.TickerReport) : Prop :=
  RedditSentimentClient.total_mentions rep = length (RedditSentimentClient.posts rep) /\
  sum_counts (RedditSentimentClient.by_subreddit rep) =
  RedditSentimentClient.total_mentions rep.

(** The arguments of each [search_subreddit] call of a log, in call
    order: subreddit, query, limit, sort. *)
Definition searches (l : list Event) : list (string * string * Z * string) :=
  omap (fun e => match e with
                 | EvSearch sub q limit sort _ => Some (sub, q, limit, sort)
                 | _ => None
                 end) l.

(** The arguments of each [fetch_subreddit_posts] call of a log, in call
    order: subreddit, limit, category, time filter. *)
Definition fetches (l : list Event) : list (string * Z * string * string) :=
  omap (fun e => match e with
                 | EvFetch sub limit category time_filter _ =>
                     Some (sub, limit, category, time_filter)
                 | _ => None
                 end) l.

(** The bounds of each sleep of a log, in order. *)
Definition sleeps (l : list Event) : list (Q * Q) :=
  omap (fun e => match e with
                 | EvSleep lo hi => Some (lo, hi)
                 | _ => None
                 end) l.

(** [post.get('subreddit', 'unknown')] *)
Definition subreddit_of (h : heap) (post : loc) : pyval :=
  default (PyStr "unknown") (h post !! "subreddit").

(** Number of posts of [ps] that [get_sentiment_data] counts under the key
    [k]. *)
Definition mentions (h : heap) (k : pyval) (ps : list loc) : nat :=
  length (filter (fun p => subreddit_of h p = k) ps).

(** What the counting loop reads from each post of [ps] is a string: the
    value of its [subreddit] field, or the default when it has none. *)
Definition string_subreddits (h : heap) (ps : list loc) : Prop :=
  forall p, p ∈ ps -> exists sub : string, subreddit_of h p = PyStr sub.

(** The keys of the counts of a report are configured subreddits. *)
Definition counts_configured (self : RedditSentimentClient.Self)
  (rep : RedditSentimentClient.TickerReport) : Prop :=
  forall k, is_Some (RedditSentimentClient.by_subreddit rep !! k) ->
            exists sub : string,
              sub ∈ RedditSentimentClient.subreddits self /\ k = PyStr sub.

(** In the store [h] the report still describes its posts: each of them
    carries the report's ticker, and the counts are those of the subreddits
    the posts carry. *)
Definition report_current (h : heap) (rep : RedditSentimentClient.TickerReport)
  : Prop :=
  (forall p, p ∈ RedditSentimentClient.posts rep ->
     h p !! "ticker_searched" = Some (PyStr (RedditSentimentClient.ticker rep))) /\
  RedditSentimentClient.by_subreddit rep =
  RedditSentimentClient.count_by_subreddit h (RedditSentimentClient.posts rep) ∅.

(** Reading the outcome of [_init_yars]: the location reported, [sys.path]
    afterwards, and the import attempts made. *)
Definition loaded {IS} (x : option string * list string * IS * list (string * bool))
  : option string := x.1.1.1.
Definition path_after {IS}
  (x : option string * list string * IS * list (string * bool))
  : list string := x.1.1.2.
Definition attempts {IS}
  (x : option string * list string * IS * list (string * bool))
  : list (string * bool) := x.2.

(** An import that succeeds once the directory ["/opt/yars/src"] is on
    [sys.path], and a [sys.path] to start from. *)
Definition import_from_opt (path : list string) (st : unit) : bool * unit :=
  (bool_decide ("/opt/yars/src" ∈ path), st).
Definition start_path : list string := ["/usr/lib/python3"; "/app"].

(** ** Concrete collaborators and configurations *)

(** A miner that raises on every call. *)
Definition failing_miner : Outside unit :=
  {| search_subreddit := fun _ _ _ _ cs => (Raises, cs);
     fetch_subreddit_posts := fun _ _ _ _ cs => (Raises, cs);
     scrape_post_details := fun _ cs => (Raises, cs);
     now_isoformat := fun _ => "2024-01-01T00:00:00" |}.

(** A miner that answers every call with the same post object, number 0. *)
Definition caching_miner : Outside unit :=
  {| search_subreddit := fun _ _ _ _ cs => (Returns [0], cs);
     fetch_subreddit_posts := fun _ _ _ _ cs => (Returns [0], cs);
     scrape_post_details := fun _ cs => (Returns (Some 0), cs);
     now_isoformat := fun _ => "2024-01-01T00:00:00" |}.

(** A miner whose state counts its calls and that hands out a new post
    object per call; it raises on the subreddit ["investing"]. *)
Definition fresh_miner : Outside nat :=
  {| search_subreddit := fun sub _ _ _ n =>
       (if String.eqb sub "investing" then Raises else Returns [n], S n);
     fetch_subreddit_posts := fun sub _ _ _ n =>
       (if String.eqb sub "investing" then Raises else Returns [n], S n);
     scrape_post_details := fun _ n => (Returns (Some n), S n);
     now_isoformat := fun _ => "2024-01-01T00:00:00" |}.

(** A miner like the one before, except that it finds nothing on the
    subreddit ["stocks"]. *)
Definition sparse_miner : Outside nat :=
  {| search_subreddit := fun sub _ _ _ n =>
       (if String.eqb sub "investing" then Raises
        else if String.eqb sub "stocks" then Returns []
        else Returns [n], S n);
     fetch_subreddit_posts := fun sub _ _ _ n =>
       (if String.eqb sub "investing" then Raises
        else if String.eqb sub "stocks" then Returns []
        else Returns [n], S n);
     scrape_post_details := fun _ n => (Returns (Some n), S n);
     now_isoformat := fun _ => "2024-01-01T00:00:00" |}.

(** A store in which every post has a title and a subreddit field. *)
Definition titled_heap : heap :=
  fun _ => {[ "title" := PyStr "TSLA to the moon"; "subreddit" := PyStr "r/stocks" ]}.

(** The test configuration of the drop-in module's script. *)
Definition test_config : RedditSentimentClient.Config :=
  {| RedditSentimentClient.cfg_enabled := Some true;
     RedditSentimentClient.cfg_reddit_enabled := Some true;
     RedditSentimentClient.cfg_reddit_proxy := Some None;
     RedditSentimentClient.cfg_subreddits := Some ["wallstreetbets"; "stocks"];
     RedditSentimentClient.cfg_rate_limit_per_minute := Some 30%Z |}.

(** A configuration whose [enabled] key is false and that leaves
    [reddit_enabled] out. *)
Definition enabled_false_config : RedditSentimentClient.Config :=
  {| RedditSentimentClient.cfg_enabled := Some false;
     RedditSentimentClient.cfg_reddit_enabled := None;
     RedditSentimentClient.cfg_reddit_proxy := None;
     RedditSentimentClient.cfg_subreddits := Some ["stocks"];
     RedditSentimentClient.cfg_rate_limit_per_minute := Some 30%Z |}.

(** A configuration whose [reddit_enabled] key is false. *)
Definition reddit_disabled_config : RedditSentimentClient.Config :=
  {| RedditSentimentClient.cfg_enabled := Some true;
     RedditSentimentClient.cfg_reddit_enabled := Some false;
     RedditSentimentClient.cfg_reddit_proxy := None;
     RedditSentimentClient.cfg_subreddits := Some ["stocks"];
     RedditSentimentClient.cfg_rate_limit_per_minute := Some 30%Z |}.

(** The states the examples start from. *)
Definition unit_state : State unit := mkState tt titled_heap.
Definition fresh_state : State nat := mkState 0 titled_heap.

(** A configuration that sets the rate limit and nothing else. *)
Definition rate_config (r : option Z) : RedditSentimentClient.Config :=
  {| RedditSentimentClient.cfg_enabled := None;
     RedditSentimentClient.cfg_reddit_enabled := None;
     RedditSentimentClient.cfg_reddit_proxy := None;
     RedditSentimentClient.cfg_subreddits := None;
     RedditSentimentClient.cfg_rate_limit_per_minute := r |}.

(** * Lemmas *)

(** ** Runs and sequencing *)

Section RunLemmas.
Context {CS : Type}.

Lemma bind_run {A B} (m : M CS A) (k : A -> M CS B) (s : State CS) :
  bind m k s = after (log (m s)) (k (result (m s)) (final (m s))).
Proof.
  unfold bind, after, log, result, final.
  destruct (m s) as [[a s1] l1]; simpl.
  destruct (k a s1) as [[b s2] l2]; reflexivity.
Qed.

Lemma result_after {A} evs (x : A * State CS * list Event) :
  result (after evs x) = result x.
Proof. reflexivity. Qed.

Lemma final_after {A} evs (x : A * State CS * list Event) :
  final (after evs x) = final x.
Proof. reflexivity. Qed.

Lemma log_after {A} evs (x : A * State CS * list Event) :
  log (after evs x) = evs ++ log x.
Proof. reflexivity. Qed.

End RunLemmas.

(** ** Counting events *)

Lemma count_app f l1 l2 : count f (l1 ++ l2) = count f l1 + count f l2.
Proof. unfold count. rewrite List.filter_app, length_app. reflexivity. Qed.

Lemma count_cons f e l :
  count f (e :: l) = (if f e then 1 else 0) + count f l.
Proof. unfold count. simpl. destruct (f e); reflexivity. Qed.

Lemma paced_counts lo hi l : paced lo hi l -> paced_per_return l.
Proof.
  unfold paced_per_return.
  induction 1 as [| e l He _ IH | e l Hc He _ IH].
  - reflexivity.
  - rewrite !count_cons, He. simpl.
    destruct e; try discriminate; simpl; lia.
  - rewrite !count_cons, He.
    destruct e; try discriminate; simpl; lia.
Qed.

Lemma paced_app lo hi l1 l2 :
  paced lo hi l1 -> paced lo hi l2 -> paced lo hi (l1 ++ l2).
Proof.
  induction 1; intros H2; simpl; [assumption | |].
  - apply paced_returned; auto.
  - apply paced_raised; auto.
Qed.

(** ** The store *)

Lemma setitem_same p k v h : setitem p k v h p !! k = Some v.
Proof. unfold setitem. rewrite fn_lookup_insert. apply lookup_insert_eq. Qed.

Lemma setitem_other_key p k v h k' :
  k <> k' -> setitem p k v h p !! k' = h p !! k'.
Proof.
  intros Hk. unfold setitem. rewrite fn_lookup_insert.
  apply lookup_insert_ne, Hk.
Qed.

Lemma setitem_other_post p k v h q : p <> q -> setitem p k v h q = h q.
Proof. intros Hp. unfold setitem. apply fn_lookup_insert_ne, Hp. Qed.

Lemma setitem_lookup p k v h q k' :
  setitem p k v h q !! k' =
  if decide (p = q /\ k = k') then Some v else h q !! k'.
Proof.
  destruct (decide (p = q)) as [<- | Hp].
  - destruct (decide (k = k')) as [<- | Hk].
    + rewrite setitem_same, decide_True; auto.
    + rewrite setitem_other_key, decide_False; tauto.
  - rewrite setitem_other_post, decide_False; tauto.
Qed.

Lemma tag_all_cons sub ticker p ps h :
  tag_all sub ticker (p :: ps) h =
  tag_all sub ticker ps
    (setitem p "ticker_searched" (PyStr ticker) (setitem p "subreddit" (PyStr sub) h)).
Proof. reflexivity. Qed.

(** A dict the loop does not visit is left as it is. *)
Lemma tag_all_untouched sub ticker ps h q :
  q ∉ ps -> tag_all sub ticker ps h q = h q.
Proof.
  revert h. induction ps as [| p ps IH]; intros h Hq; [reflexivity |].
  apply not_elem_of_cons in Hq as [Hne Hq].
  rewrite tag_all_cons, IH by assumption.
  rewrite !setitem_other_post; auto.
Qed.

(** The loop writes the two tag keys only. *)
Lemma tag_all_other_fields sub ticker ps h q :
  other_fields_preserved "subreddit" "ticker_searched" (h q) (tag_all sub ticker ps h q).
Proof.
  intros k Hk1 Hk2. revert h.
  induction ps as [| p ps IH]; intros h; [reflexivity |].
  rewrite tag_all_cons, IH, !setitem_lookup.
  rewrite !decide_False; [reflexivity | |]; intros [_ ?]; congruence.
Qed.

(** A dict the loop visits carries both tags afterwards. *)
Lemma tag_all_tags sub ticker ps h q :
  q ∈ ps ->
  tag_all sub ticker ps h q !! "ticker_searched" = Some (PyStr ticker) /\
  tag_all sub ticker ps h q !! "subreddit" = Some (PyStr sub).
Proof.
  revert h. induction ps as [| p ps IH]; intros h Hq.
  - inversion Hq.
  - rewrite tag_all_cons.
    destruct (decide (q ∈ ps)) as [Hin | Hnin]; [apply IH, Hin |].
    apply elem_of_cons in Hq as [-> | Hq]; [| contradiction].
    rewrite tag_all_untouched by assumption.
    rewrite !setitem_lookup. split.
    + rewrite decide_True; auto.
    + rewrite decide_False by (intros [_ ?]; discriminate).
      rewrite decide_True; auto.
Qed.

(** ** [search_ticker] *)

Section SearchTicker.
Import RedditSentimentClient.
Context {CS : Type} (miner : Outside CS) (self : Self).

Lemma add_metadata_run sub ticker ps (s : State CS) :
  add_metadata sub ticker ps s =
  (tt, mkState (st_out s) (tag_all sub ticker ps (st_heap s)), []).
Proof.
  revert s. induction ps as [| p ps IH]; intros s.
  - destruct s; reflexivity.
  - cbn [add_metadata]. rewrite !bind_run. cbn.
    rewrite IH. reflexivity.
Qed.


(** One turn of the loop of [search_ticker]. *)
Lemma search_loop_cons ticker limit sub rest acc (s : State CS) :
  search_loop miner self ticker limit (sub :: rest) acc s =
  match search_subreddit miner sub ticker limit "relevance" (st_out s) with
  | (Returns ps, cs) =>
      after [EvSearch sub ticker limit "relevance" (Returns ps); delay_event self]
        (search_loop miner self ticker limit rest (acc ++ ps)
           (mkState cs (tag_all sub ticker ps (st_heap s))))
  | (Raises, cs) =>
      after [EvSearch sub ticker limit "relevance" Raises]
        (search_loop miner self ticker limit rest acc (mkState cs (st_heap s)))
  end.
Proof.
  cbn [search_loop]. unfold bind, call_search, after.
  destruct (search_subreddit miner sub ticker limit "relevance" (st_out s))
    as [[ps |] cs]; cbn.
  - destruct ps as [| p ps]; cbn.
    + rewrite app_nil_r.
      destruct (search_loop _ _ _ _ _ _ _) as [[b s2] l2]; reflexivity.
    + rewrite add_metadata_run. cbn.
      destruct (search_loop _ _ _ _ _ _ _) as [[b s2] l2]; reflexivity.
  - destruct (search_loop _ _ _ _ _ _ _) as [[b s2] l2]; reflexivity.
Qed.

Lemma provenance_returned sub q limit sort ps d l :
  is_delay d = true ->
  provenance (EvSearch sub q limit sort (Returns ps) :: d :: l) =
  ((fun p => (sub, p)) <$> ps) ++ provenance l.
Proof. intros Hd. destruct d; try discriminate. reflexivity. Qed.

Lemma provenance_raised sub q limit sort l :
  provenance (EvSearch sub q limit sort Raises :: l) = provenance l.
Proof. reflexivity. Qed.

Lemma elem_of_sourced_posts (sub : string) (ps : list loc) (p : loc) :
  p ∈ ((fun q => (sub, q)) <$> ps).*2 <-> p ∈ ps.
Proof.
  rewrite <- list_fmap_compose.
  replace (snd ∘ (fun q : loc => (sub, q))) with (@id loc) by reflexivity.
  rewrite list_fmap_id. reflexivity.
Qed.

Ltac loop_step :=
  rewrite search_loop_cons;
  destruct (search_subreddit _ _ _ _ _ _) as [[ps |] cs];
  rewrite ?result_after, ?final_after, ?log_after.

(** The loop returns the posts of the searches that returned, in order. *)
Lemma search_loop_result ticker limit subs acc (s : State CS) :
  result (search_loop miner self ticker limit subs acc s) =
  acc ++ (provenance (log (search_loop miner self ticker limit subs acc s))).*2.
Proof.
  revert acc s. induction subs as [| sub rest IH]; intros acc s.
  - cbn. rewrite app_nil_r. reflexivity.
  - loop_step; rewrite IH; cbn [app].
    + rewrite provenance_returned by reflexivity.
      rewrite fmap_app, <- list_fmap_compose, app_assoc.
      replace (snd ∘ (fun q : loc => (sub, q))) with (@id loc) by reflexivity.
      rewrite list_fmap_id. reflexivity.
    + rewrite provenance_raised. reflexivity.
Qed.

(** The loop searches every subreddit of its list, in order, whatever the
    earlier searches did. *)
Lemma search_loop_searched ticker limit subs acc (s : State CS) :
  searched (log (search_loop miner self ticker limit subs acc s)) = subs.
Proof.
  revert acc s. induction subs as [| sub rest IH]; intros acc s.
  - reflexivity.
  - loop_step; cbn; rewrite IH; reflexivity.
Qed.

Lemma search_loop_paced ticker limit subs acc (s : State CS) :
  paced (lo self) (hi self) (log (search_loop miner self ticker limit subs acc s)).
Proof.
  revert acc s. induction subs as [| sub rest IH]; intros acc s.
  - constructor.
  - loop_step; cbn [app].
    + apply paced_returned; [reflexivity | apply IH].
    + apply paced_raised; [reflexivity | reflexivity | apply IH].
Qed.

Lemma search_loop_calls ticker limit subs acc (s : State CS) :
  count is_call (log (search_loop miner self ticker limit subs acc s)) = length subs.
Proof.
  revert acc s. induction subs as [| sub rest IH]; intros acc s.
  - reflexivity.
  - loop_step; cbn [app]; rewrite !count_cons, IH; reflexivity.
Qed.

(** The loop writes the two tag keys only. *)
Lemma search_loop_other_fields ticker limit subs acc (s : State CS) p :
  other_fields_preserved "subreddit" "ticker_searched" (st_heap s p)
    (st_heap (final (search_loop miner self ticker limit subs acc s)) p).
Proof.
  revert acc s. induction subs as [| sub rest IH]; intros acc s k Hk1 Hk2.
  - reflexivity.
  - loop_step; rewrite IH by assumption; cbn.
    + apply tag_all_other_fields; assumption.
    + reflexivity.
Qed.

(** A dict no search returned is left as it is. *)
Lemma search_loop_untouched ticker limit subs acc (s : State CS) p :
  p ∉ (provenance (log (search_loop miner self ticker limit subs acc s))).*2 ->
  st_heap (final (search_loop miner self ticker limit subs acc s)) p = st_heap s p.
Proof.
  revert acc s. induction subs as [| sub rest IH]; intros acc s.
  - reflexivity.
  - loop_step; cbn [app].
    + rewrite provenance_returned by reflexivity.
      rewrite fmap_app, not_elem_of_app, elem_of_sourced_posts.
      intros [Hps Hrest]. rewrite IH by assumption. cbn.
      apply tag_all_untouched, Hps.
    + rewrite provenance_raised. intros Hrest.
      rewrite IH by assumption. reflexivity.
Qed.

(** Every dict a search returned carries the searched ticker. *)
Lemma search_loop_ticker_tag ticker limit subs acc (s : State CS) p :
  p ∈ (provenance (log (search_loop miner self ticker limit subs acc s))).*2 ->
  st_heap (final (search_loop miner self ticker limit subs acc s)) p
    !! "ticker_searched" = Some (PyStr ticker).
Proof.
  revert acc s. induction subs as [| sub rest IH]; intros acc s.
  - cbn. intros H; inversion H.
  - loop_step; cbn [app].
    + rewrite provenance_returned by reflexivity.
      rewrite fmap_app, elem_of_app, elem_of_sourced_posts.
      intros Hin.
      match goal with
      | |- context [search_loop miner self ticker limit rest ?a ?t] =>
          destruct (decide (p ∈ (provenance
            (log (search_loop miner self ticker limit rest a t))).*2))
            as [Hrest | Hrest]
      end.
      * apply IH, Hrest.
      * destruct Hin as [Hps | ?]; [| contradiction].
        rewrite search_loop_untouched by assumption. cbn.
        apply tag_all_tags, Hps.
    + rewrite provenance_raised. apply IH.
Qed.

(** Every dict a search returned carries the subreddit of one of the
    searches that returned it (the last one). *)
Lemma search_loop_subreddit_tag ticker limit subs acc (s : State CS) (p : loc) :
  p ∈ (provenance (log (search_loop miner self ticker limit subs acc s))).*2 ->
  exists sub : string,
    (sub, p) ∈ provenance (log (search_loop miner self ticker limit subs acc s)) /\
    st_heap (final (search_loop miner self ticker limit subs acc s)) p
      !! "subreddit" = Some (PyStr sub).
Proof.
  revert acc s. induction subs as [| sub rest IH]; intros acc s.
  - cbn. intros H; inversion H.
  - loop_step; cbn [app].
    + rewrite provenance_returned by reflexivity.
      rewrite fmap_app, elem_of_app, elem_of_sourced_posts.
      intros Hin.
      match goal with
      | |- context [search_loop miner self ticker limit rest ?a ?t] =>
          destruct (decide (p ∈ (provenance
            (log (search_loop miner self ticker limit rest a t))).*2))
            as [Hrest | Hrest]
      end.
      * destruct (IH _ _ Hrest) as (sub' & Hsub' & Htag).
        exists sub'. split; [| exact Htag].
        apply elem_of_app. right. exact Hsub'.
      * destruct Hin as [Hps | ?]; [| contradiction].
        exists sub. split.
        -- apply elem_of_app. left. apply list_elem_of_fmap. eauto.
        -- rewrite search_loop_untouched by assumption. cbn.
           apply tag_all_tags, Hps.
    + rewrite provenance_raised. apply IH.
Qed.
Lemma sourced_posts_sources (sub : string) (ps : list loc) :
  ((fun p => (sub, p)) <$> ps).*1 = replicate (length ps) sub.
Proof. induction ps as [| p ps IH]; cbn; [| rewrite IH]; reflexivity. Qed.

(** The posts of the result come subreddit by subreddit, in the order of
    the list. *)
Lemma search_loop_sources ticker limit subs acc (s : State CS) :
  in_order_of subs
    (provenance (log (search_loop miner self ticker limit subs acc s))).*1.
Proof.
  revert acc s. induction subs as [| sub rest IH]; intros acc s.
  - exists []. split; reflexivity.
  - rewrite search_loop_cons.
    destruct (search_subreddit _ _ _ _ _ _) as [[ps |] cs];
      rewrite log_after; cbn [app];
      match goal with
      | |- context [search_loop miner self ticker limit rest ?a ?t] =>
          destruct (IH a t) as (ns & Hlen & Hsrc)
      end.
    + exists (length ps :: ns). split; [cbn; lia |].
      rewrite provenance_returned by reflexivity.
      rewrite fmap_app, sourced_posts_sources, Hsrc. reflexivity.
    + exists (0 :: ns). split; [cbn; lia |].
      rewrite provenance_raised, Hsrc. reflexivity.
Qed.

End SearchTicker.

(** ** Dicts of counts *)

Section SumCounts.
Context `{Countable K}.

Lemma sum_counts_empty : sum_counts (∅ : gmap K nat) = 0.
Proof. apply map_fold_empty. Qed.

Lemma sum_counts_insert_fresh (d : gmap K nat) k n :
  d !! k = None -> sum_counts (<[k := n]> d) = n + sum_counts d.
Proof.
  intros Hk. unfold sum_counts.
  apply (map_fold_insert_L (fun _ n acc => n + acc)); [| exact Hk].
  intros; lia.
Qed.

Lemma sum_counts_delete (d : gmap K nat) k m :
  d !! k = Some m -> sum_counts d = m + sum_counts (delete k d).
Proof.
  intros Hk. unfold sum_counts.
  apply (map_fold_delete_L (fun _ n acc => n + acc)); [| exact Hk].
  intros; lia.
Qed.

(** Overwriting the count [m] of a key by [n]. *)
Lemma sum_counts_insert (d : gmap K nat) k n m :
  d !! k = Some m -> sum_counts (<[k := n]> d) + m = n + sum_counts d.
Proof.
  intros Hk.
  rewrite (sum_counts_delete d k m Hk).
  rewrite <- (insert_delete_eq d k n).
  rewrite sum_counts_insert_fresh by apply lookup_delete_eq.
  lia.
Qed.
End SumCounts.

(** The counting loop adds one to the sum per post. *)
Lemma count_by_subreddit_sum h ps d :
  sum_counts (RedditSentimentClient.count_by_subreddit h ps d) =
  sum_counts d + length ps.
Proof.
  revert d. induction ps as [| p ps IH]; intros d; cbn.
  - lia.
  - rewrite IH.
    set (sub := default (PyStr "unknown") (h p !! "subreddit")).
    destruct (d !! sub) as [m |] eqn:Hd.
    + rewrite Hd. cbn.
      pose proof (sum_counts_insert d sub (m + 1) m Hd). lia.
    + rewrite lookup_insert_eq. cbn. rewrite insert_insert_eq.
      rewrite sum_counts_insert_fresh by exact Hd. lia.
Qed.

(** ** The other methods of the facade *)

Section Facade.
Import RedditSentimentClient.
Context {CS : Type} (miner : Outside CS) (self : Self).

(** What one call of [get_subreddit_posts] does on an enabled client. *)
Lemma get_subreddit_posts_run sub limit category time_filter (s : State CS) :
  enabled self = true ->
  get_subreddit_posts miner self sub limit category time_filter s =
  match fetch_subreddit_posts miner sub limit category time_filter (st_out s) with
  | (Returns ps, cs) =>
      (ps, mkState cs (st_heap s),
       [EvFetch sub limit category time_filter (Returns ps); delay_event self])
  | (Raises, cs) =>
      ([], mkState cs (st_heap s),
       [EvFetch sub limit category time_filter Raises])
  end.
Proof.
  intros He. unfold get_subreddit_posts, bind, call_fetch. rewrite He. cbn.
  destruct (fetch_subreddit_posts miner sub limit category time_filter (st_out s))
    as [[ps |] cs]; reflexivity.
Qed.

Lemma get_subreddit_posts_disabled sub limit category time_filter (s : State CS) :
  enabled self = false ->
  get_subreddit_posts miner self sub limit category time_filter s = ([], s, []).
Proof. intros He. unfold get_subreddit_posts. rewrite He. reflexivity. Qed.

Lemma get_subreddit_posts_paced sub limit category time_filter (s : State CS) :
  paced (lo self) (hi self)
    (log (get_subreddit_posts miner self sub limit category time_filter s)).
Proof.
  destruct (enabled self) eqn:He.
  - rewrite get_subreddit_posts_run by assumption.
    destruct (fetch_subreddit_posts _ _ _ _ _ _) as [[ps |] cs]; cbn.
    + apply paced_returned; [reflexivity | constructor].
    + apply paced_raised; [reflexivity | reflexivity | constructor].
  - rewrite get_subreddit_posts_disabled by assumption. constructor.
Qed.

(** The call yields posts exactly when its result is a non-empty list. *)
Lemma get_subreddit_posts_yielded sub limit category time_filter (s : State CS) sub' :
  yielded sub' (log (get_subreddit_posts miner self sub limit category time_filter s))
  <-> sub' = sub /\
      result (get_subreddit_posts miner self sub limit category time_filter s) <> [].
Proof.
  unfold yielded. destruct (enabled self) eqn:He.
  - rewrite get_subreddit_posts_run by assumption.
    destruct (fetch_subreddit_posts _ _ _ _ _ _) as [[ps |] cs]; cbn; split.
    + intros (l & c & t & qs & Hin & Hne).
      apply elem_of_cons in Hin as [Heq | Hin].
      * injection Heq as -> -> -> -> ->. auto.
      * apply list_elem_of_singleton in Hin. discriminate.
    + intros [-> Hne]. exists limit, category, time_filter, ps.
      split; [left | exact Hne].
    + intros (l & c & t & qs & Hin & Hne).
      apply list_elem_of_singleton in Hin. discriminate.
    + intros [_ Hne]. contradiction.
  - rewrite get_subreddit_posts_disabled by assumption. cbn. split.
    + intros (l & c & t & qs & Hin & Hne). inversion Hin.
    + intros [_ Hne]. contradiction.
Qed.

Lemma get_post_details_paced permalink (s : State CS) :
  paced (lo self) (hi self) (log (get_post_details miner self permalink s)).
Proof.
  unfold get_post_details, bind, call_details.
  destruct (enabled self); cbn; [| constructor].
  destruct (scrape_post_details miner permalink (st_out s)) as [[d |] cs]; cbn.
  - apply paced_returned; [reflexivity | constructor].
  - apply paced_raised; [reflexivity | reflexivity | constructor].
Qed.

Lemma yielded_app sub l1 l2 :
  yielded sub (l1 ++ l2) <-> yielded sub l1 \/ yielded sub l2.
Proof.
  unfold yielded. split.
  - intros (l & c & t & ps & Hin & Hne).
    apply elem_of_app in Hin as [Hin | Hin]; [left | right]; eauto 8.
  - intros [(l & c & t & ps & Hin & Hne) | (l & c & t & ps & Hin & Hne)];
      exists l, c, t, ps; (split; [apply elem_of_app; auto | exact Hne]).
Qed.

Lemma truthy_true {A} (l : list A) : truthy l = true <-> l <> [].
Proof. destruct l; cbn; split; congruence. Qed.

Lemma multi_loop_cons limit category sub rest results (s : State CS) :
  multi_loop miner self limit category (sub :: rest) results s =
  let r := get_subreddit_posts miner self sub limit category "day" s in
  after (log r)
    (multi_loop miner self limit category rest
       (if truthy (result r) then <[sub := result r]> results else results)
       (final r)).
Proof. cbn [multi_loop]. rewrite bind_run. reflexivity. Qed.

Lemma multi_loop_paced limit category subs results (s : State CS) :
  paced (lo self) (hi self) (log (multi_loop miner self limit category subs results s)).
Proof.
  revert results s. induction subs as [| sub rest IH]; intros results s.
  - constructor.
  - rewrite multi_loop_cons. cbv zeta. rewrite log_after.
    apply paced_app; [apply get_subreddit_posts_paced | apply IH].
Qed.

(** The keys of the mapping: those it started with and the subreddits that
    yielded posts. *)
Lemma multi_loop_keys limit category subs results (s : State CS) sub :
  is_Some (result (multi_loop miner self limit category subs results s) !! sub)
  <-> is_Some (results !! sub) \/
      yielded sub (log (multi_loop miner self limit category subs results s)).
Proof.
  revert results s. induction subs as [| sub0 rest IH]; intros results s.
  - cbn. split; [auto |]. intros [? | (l & c & t & ps & Hin & _)]; [auto |].
    inversion Hin.
  - rewrite multi_loop_cons. cbv zeta.
    rewrite result_after, log_after, IH, yielded_app, get_subreddit_posts_yielded.
    destruct (truthy _) eqn:Ht.
    + apply truthy_true in Ht. rewrite lookup_insert_is_Some.
      destruct (decide (sub0 = sub)) as [-> |]; intuition (subst; auto).
    + assert (~ result (get_subreddit_posts miner self sub0 limit category "day" s) <> [])
        by (rewrite <- truthy_true, Ht; discriminate).
      tauto.
Qed.

(** No key of the mapping holds an empty list, unless it did from the
    start. *)
Lemma multi_loop_nonempty limit category subs results (s : State CS) sub :
  result (multi_loop miner self limit category subs results s) !! sub = Some [] ->
  results !! sub = Some [].
Proof.
  revert results s. induction subs as [| sub0 rest IH]; intros results s.
  - auto.
  - rewrite multi_loop_cons. cbv zeta. rewrite result_after.
    intros Hres. apply IH in Hres.
    destruct (truthy _) eqn:Ht; [| exact Hres].
    apply truthy_true in Ht.
    destruct (decide (sub0 = sub)) as [-> | Hne].
    + rewrite lookup_insert_eq in Hres. congruence.
    + rewrite lookup_insert_ne in Hres by exact Hne. exact Hres.
Qed.

Lemma get_subreddit_posts_calls sub limit category time_filter (s : State CS) :
  count is_call (log (get_subreddit_posts miner self sub limit category time_filter s))
  = if enabled self then 1 else 0.
Proof.
  destruct (enabled self) eqn:He.
  - rewrite get_subreddit_posts_run by assumption.
    destruct (fetch_subreddit_posts _ _ _ _ _ _) as [[ps |] cs]; reflexivity.
  - rewrite get_subreddit_posts_disabled by assumption. reflexivity.
Qed.

Lemma get_post_details_calls permalink (s : State CS) :
  count is_call (log (get_post_details miner self permalink s))
  = if enabled self then 1 else 0.
Proof.
  unfold get_post_details, bind, call_details.
  destruct (enabled self); cbn; [| reflexivity].
  destruct (scrape_post_details miner permalink (st_out s)) as [[d |] cs];
    reflexivity.
Qed.

Lemma multi_loop_calls limit category subs results (s : State CS) :
  enabled self = true ->
  count is_call (log (multi_loop miner self limit category subs results s))
  = length subs.
Proof.
  intros He. revert results s.
  induction subs as [| sub rest IH]; intros results s.
  - reflexivity.
  - rewrite multi_loop_cons. cbv zeta.
    rewrite log_after, count_app, IH, get_subreddit_posts_calls, He.
    reflexivity.
Qed.
End Facade.

Section Sentiment.
Import RedditSentimentClient.
Context {CS : Type} (miner : Outside CS) (self : Self).

Lemma search_ticker_paced ticker subs limit (s : State CS) :
  paced (lo self) (hi self) (log (search_ticker miner self ticker subs limit s)).
Proof.
  unfold search_ticker. destruct (enabled self); cbn [negb].
  - apply search_loop_paced.
  - constructor.
Qed.

Lemma report_of_consistent t r : report_consistent (report_of miner t r).
Proof.
  split; [reflexivity |]. cbn.
  rewrite count_by_subreddit_sum, sum_counts_empty. reflexivity.
Qed.

Lemma sentiment_loop_cons limit t rest results (s : State CS) :
  sentiment_loop miner self limit (t :: rest) results s =
  let r := search_ticker miner self t None limit s in
  after (log r)
    (sentiment_loop miner self limit rest (<[t := report_of miner t r]> results) (final r)).
Proof.
  cbn [sentiment_loop]. rewrite bind_run. cbv zeta. f_equal.
  unfold bind, datetime_now, get_heap, report_of.
  destruct (sentiment_loop _ _ _ _ _ _) as [[b s2] l2]. reflexivity.
Qed.

Lemma sentiment_loop_paced limit tickers results (s : State CS) :
  paced (lo self) (hi self) (log (sentiment_loop miner self limit tickers results s)).
Proof.
  revert results s. induction tickers as [| t rest IH]; intros results s.
  - constructor.
  - rewrite sentiment_loop_cons. cbv zeta. rewrite log_after.
    apply paced_app; [apply search_ticker_paced | apply IH].
Qed.

Lemma sentiment_loop_consistent limit tickers results (s : State CS) :
  map_Forall (fun _ rep => report_consistent rep) results ->
  map_Forall (fun _ rep => report_consistent rep)
    (result (sentiment_loop miner self limit tickers results s)).
Proof.
  revert results s. induction tickers as [| t rest IH]; intros results s Hres.
  - exact Hres.
  - rewrite sentiment_loop_cons. cbv zeta. rewrite result_after.
    apply IH, map_Forall_insert_2; [apply report_of_consistent | exact Hres].
Qed.

(** When every search raises, the loop of [search_ticker] returns what it
    started with and leaves the store alone. *)
Lemma search_loop_all_raise ticker limit subs acc (s : State CS) :
  (forall sub q l so cs, (search_subreddit miner sub q l so cs).1 = Raises) ->
  result (search_loop miner self ticker limit subs acc s) = acc.
Proof.
  intros Hraise. revert acc s. induction subs as [| sub rest IH]; intros acc s.
  - reflexivity.
  - rewrite search_loop_cons.
    pose proof (Hraise sub ticker limit "relevance" (st_out s)) as Hr.
    destruct (search_subreddit _ _ _ _ _ _) as [[ps |] cs]; [discriminate |].
    rewrite result_after. apply IH.
Qed.

Lemma get_multi_subreddit_posts_paced subs limit category (s : State CS) :
  paced (lo self) (hi self)
    (log (get_multi_subreddit_posts miner self subs limit category s)).
Proof.
  unfold get_multi_subreddit_posts. destruct (enabled self); cbn [negb].
  - apply multi_loop_paced.
  - constructor.
Qed.

Lemma get_sentiment_data_paced tickers limit (s : State CS) :
  paced (lo self) (hi self) (log (get_sentiment_data miner self tickers limit s)).
Proof.
  unfold get_sentiment_data. destruct (enabled self); cbn [negb].
  - apply sentiment_loop_paced.
  - constructor.
Qed.

(** [search_ticker] returns the posts of the searches that returned. *)
Lemma search_ticker_result ticker subs limit (s : State CS) :
  result (search_ticker miner self ticker subs limit s) =
  (provenance (log (search_ticker miner self ticker subs limit s))).*2.
Proof.
  unfold search_ticker. destruct (enabled self); cbn [negb].
  - apply (search_loop_result miner self ticker limit _ [] s).
  - reflexivity.
Qed.
End Sentiment.

(** ** The scraper *)

Section Scraper.
Import StockSentimentScraper.
Context {CS : Type} (miner : Outside CS) (self : Self).

Lemma scrape_loop_cons ticker max_posts sub rest results (s : State CS) :
  scrape_loop miner ticker max_posts (sub :: rest) results s =
  match search_subreddit miner sub ticker max_posts "relevance" (st_out s) with
  | (Returns ps, cs) =>
      after [EvSearch sub ticker max_posts "relevance" (Returns ps); EvSleep 2 4]
        (scrape_loop miner ticker max_posts rest
           (if truthy ps then record_posts (st_heap s) sub ticker ps results
            else results)
           (mkState cs (st_heap s)))
  | (Raises, cs) =>
      after [EvSearch sub ticker max_posts "relevance" Raises]
        (scrape_loop miner ticker max_posts rest results (mkState cs (st_heap s)))
  end.
Proof.
  cbn [scrape_loop]. unfold bind, call_search, after.
  destruct (search_subreddit miner sub ticker max_posts "relevance" (st_out s))
    as [[ps |] cs]; cbn;
    destruct (scrape_loop _ _ _ _ _ _) as [[b s2] l2]; reflexivity.
Qed.

(** The scraper reads the store and never writes to it. *)
Lemma scrape_loop_heap ticker max_posts subs results (s : State CS) :
  st_heap (final (scrape_loop miner ticker max_posts subs results s)) = st_heap s.
Proof.
  revert results s. induction subs as [| sub rest IH]; intros results s.
  - reflexivity.
  - rewrite scrape_loop_cons.
    destruct (search_subreddit _ _ _ _ _ _) as [[ps |] cs];
      rewrite final_after, IH; reflexivity.
Qed.

(** The new dicts of [all_posts]: one per post object returned, tagged. *)
Lemma scrape_loop_all_posts ticker max_posts subs results (s : State CS) :
  all_posts (result (scrape_loop miner ticker max_posts subs results s)) =
  all_posts results ++
  ((fun sp => tagged sp.1 ticker (st_heap s sp.2)) <$>
     provenance (log (scrape_loop miner ticker max_posts subs results s))).
Proof.
  revert results s. induction subs as [| sub rest IH]; intros results s.
  - cbn. rewrite app_nil_r. reflexivity.
  - rewrite scrape_loop_cons.
    destruct (search_subreddit _ _ _ _ _ _) as [[ps |] cs];
      rewrite result_after, log_after, IH; cbn [app st_heap].
    + rewrite provenance_returned by reflexivity.
      rewrite fmap_app, <- list_fmap_compose, app_assoc. f_equal.
      destruct ps; [cbn; rewrite app_nil_r |]; reflexivity.
    + rewrite provenance_raised. reflexivity.
Qed.

Lemma scrape_loop_total ticker max_posts subs results (s : State CS) :
  total_posts (result (scrape_loop miner ticker max_posts subs results s)) =
  total_posts results +
  length (provenance (log (scrape_loop miner ticker max_posts subs results s))).
Proof.
  revert results s. induction subs as [| sub rest IH]; intros results s.
  - cbn. lia.
  - rewrite scrape_loop_cons.
    destruct (search_subreddit _ _ _ _ _ _) as [[ps |] cs];
      rewrite result_after, log_after, IH; cbn [app].
    + rewrite provenance_returned by reflexivity.
      rewrite length_app, length_fmap.
      destruct ps; cbn; lia.
    + rewrite provenance_raised. reflexivity.
Qed.

(** Over distinct subreddits none of which has a count yet, the counts sum
    up to the number of posts returned. *)
Lemma scrape_loop_counts ticker max_posts subs results (s : State CS) :
  NoDup subs ->
  (forall sub, sub ∈ subs -> by_subreddit results !! sub = None) ->
  sum_counts (by_subreddit (result (scrape_loop miner ticker max_posts subs results s))) =
  sum_counts (by_subreddit results) +
  length (provenance (log (scrape_loop miner ticker max_posts subs results s))).
Proof.
  intros Hnd. revert results s.
  induction Hnd as [| sub rest Hnin Hnd IH]; intros results s Hfresh.
  - cbn. lia.
  - rewrite scrape_loop_cons.
    destruct (search_subreddit _ _ _ _ _ _) as [[ps |] cs];
      rewrite result_after, log_after; cbn [app].
    + rewrite provenance_returned by reflexivity.
      rewrite length_app, length_fmap.
      destruct ps as [| p ps]; cbn [truthy].
      * rewrite IH; [reflexivity |].
        intros sub' Hin. apply Hfresh. right. exact Hin.
      * rewrite IH.
        -- cbn [by_subreddit record_posts].
           rewrite sum_counts_insert_fresh by (apply Hfresh; left).
           lia.
        -- intros sub' Hin. cbn [by_subreddit record_posts].
           rewrite lookup_insert_ne by (intros ->; contradiction).
           apply Hfresh. right. exact Hin.
    + rewrite provenance_raised. apply IH.
      intros sub' Hin. apply Hfresh. right. exact Hin.
Qed.
End Scraper.

(** ** The last search that returned a post *)

Lemma last_source_app prov1 prov2 p :
  last_source (prov1 ++ prov2) p =
  match last_source prov2 p with
  | Some later => Some later
  | None => last_source prov1 p
  end.
Proof.
  induction prov1 as [| [sub q] prov1 IH]; cbn.
  - destruct (last_source prov2 p); reflexivity.
  - rewrite IH. destruct (last_source prov2 p); reflexivity.
Qed.


Lemma last_source_None prov p :
  last_source prov p = None <-> p ∉ prov.*2.
Proof.
  induction prov as [| [sub q] prov IH]; cbn.
  - split; [intros _; apply not_elem_of_nil | reflexivity].
  - rewrite not_elem_of_cons, <- IH.
    destruct (last_source prov p) as [later |].
    + split; [discriminate | intros [_ ?]; discriminate].
    + destruct (decide (q = p)) as [-> |].
      * split; [discriminate | intros [? _]; congruence].
      * split; [auto | reflexivity].
Qed.

(** Among the objects of one search, the last source is that search. *)
Lemma last_source_sourced (sub : string) (ps : list loc) (p : loc) :
  last_source ((fun q => (sub, q)) <$> ps) p =
  if decide (p ∈ ps) then Some sub else None.
Proof.
  induction ps as [| q ps IH]; cbn.
  - reflexivity.
  - rewrite IH.
    destruct (decide (p ∈ ps)) as [Hin | Hnin].
    + rewrite decide_True by (right; exact Hin). reflexivity.
    + destruct (decide (q = p)) as [-> | Hne].
      * rewrite decide_True by left. reflexivity.
      * rewrite decide_False; [reflexivity |].
        rewrite elem_of_cons. intros [-> | ?]; congruence.
Qed.

Section LastSource.
Import RedditSentimentClient.
Context {CS : Type} (miner : Outside CS) (self : Self).

Lemma tag_all_subreddit sub ticker ps h p :
  tag_all sub ticker ps h p !! "subreddit" =
  if decide (p ∈ ps) then Some (PyStr sub) else h p !! "subreddit".
Proof.
  destruct (decide (p ∈ ps)) as [Hin | Hnin].
  - apply tag_all_tags, Hin.
  - rewrite tag_all_untouched by exact Hnin. reflexivity.
Qed.

(** After the loop of [search_ticker], a dict carries the subreddit of the
    last search that returned it, and the one it had when no search did. *)
Lemma search_loop_subreddit_last ticker limit subs acc (s : State CS) (p : loc) :
  st_heap (final (search_loop miner self ticker limit subs acc s)) p !! "subreddit" =
  match last_source (provenance (log (search_loop miner self ticker limit subs acc s))) p
  with
  | Some sub => Some (PyStr sub)
  | None => st_heap s p !! "subreddit"
  end.
Proof.
  revert acc s. induction subs as [| sub rest IH]; intros acc s.
  - reflexivity.
  - rewrite search_loop_cons.
    destruct (search_subreddit _ _ _ _ _ _) as [[ps |] cs];
      rewrite final_after, log_after; cbn [app].
    + rewrite provenance_returned by reflexivity.
      rewrite last_source_app, IH. cbn [st_heap].
      destruct (last_source _ p); [reflexivity |].
      rewrite tag_all_subreddit, last_source_sourced.
      destruct (decide (p ∈ ps)); reflexivity.
    + rewrite provenance_raised, IH. reflexivity.
Qed.

Lemma search_ticker_subreddit_last ticker subs limit (s : State CS) (p : loc) :
  st_heap (final (search_ticker miner self ticker subs limit s)) p !! "subreddit" =
  match last_source (provenance (log (search_ticker miner self ticker subs limit s))) p
  with
  | Some sub => Some (PyStr sub)
  | None => st_heap s p !! "subreddit"
  end.
Proof.
  unfold search_ticker. destruct (enabled self); cbn [negb].
  - apply search_loop_subreddit_last.
  - reflexivity.
Qed.

(** Every post of the result of [search_ticker] carries the subreddit of
    the last search that returned it. *)
Lemma search_ticker_last_source ticker subs limit (s : State CS) (p : loc) :
  p ∈ result (search_ticker miner self ticker subs limit s) ->
  exists sub : string,
    last_source (provenance (log (search_ticker miner self ticker subs limit s))) p
    = Some sub /\
    st_heap (final (search_ticker miner self ticker subs limit s)) p !! "subreddit"
    = Some (PyStr sub).
Proof.
  rewrite search_ticker_result. intros Hp.
  destruct (last_source (provenance (log (search_ticker miner self ticker subs
                                            limit s))) p) as [sub |] eqn:Hlast.
  - exists sub. split; [reflexivity |].
    rewrite search_ticker_subreddit_last, Hlast. reflexivity.
  - apply last_source_None in Hlast. contradiction.
Qed.

(** Every post of the result of [search_ticker] carries the searched
    ticker; a dict that is not in the result is as it was. *)
Lemma search_ticker_ticker_searched ticker subs limit (s : State CS) (p : loc) :
  p ∈ result (search_ticker miner self ticker subs limit s) ->
  st_heap (final (search_ticker miner self ticker subs limit s)) p
    !! "ticker_searched" = Some (PyStr ticker).
Proof.
  rewrite search_ticker_result. unfold search_ticker.
  destruct (enabled self); cbn [negb].
  - apply search_loop_ticker_tag.
  - cbn. intros Hp. inversion Hp.
Qed.

Lemma search_ticker_not_returned ticker subs limit (s : State CS) (p : loc) :
  p ∉ result (search_ticker miner self ticker subs limit s) ->
  st_heap (final (search_ticker miner self ticker subs limit s)) p = st_heap s p.
Proof.
  rewrite search_ticker_result. unfold search_ticker.
  destruct (enabled self); cbn [negb].
  - apply search_loop_untouched.
  - reflexivity.
Qed.
End LastSource.

(** ** The fetches of [get_multi_subreddit_posts] *)

Lemma fetches_app l1 l2 : fetches (l1 ++ l2) = fetches l1 ++ fetches l2.
Proof. unfold fetches. apply omap_app. Qed.

Lemma elem_of_fetches sub limit category time_filter r (l : list Event) :
  EvFetch sub limit category time_filter r ∈ l ->
  (sub, limit, category, time_filter) ∈ fetches l.
Proof.
  intros Hin. apply list_elem_of_omap.
  exists (EvFetch sub limit category time_filter r). split; [exact Hin | reflexivity].
Qed.

Section Fetches.
Import RedditSentimentClient.
Context {CS : Type} (miner : Outside CS) (self : Self).

(** The fetches of the loop of [get_multi_subreddit_posts], on an enabled
    client. *)
Lemma multi_loop_fetches limit category subs results (s : State CS) :
  enabled self = true ->
  fetches (log (multi_loop miner self limit category subs results s)) =
  (fun sub => (sub, limit, category, "day")) <$> subs.
Proof.
  intros He. revert results s.
  induction subs as [| sub rest IH]; intros results s.
  - reflexivity.
  - rewrite multi_loop_cons. cbv zeta.
    rewrite log_after, fetches_app, IH. cbn [fmap list_fmap]. f_equal.
    rewrite get_subreddit_posts_run by assumption.
    destruct (fetch_subreddit_posts _ _ _ _ _ _) as [[ps |] cs]; reflexivity.
Qed.

(** The fetches of [get_multi_subreddit_posts]: one per subreddit of its
    list, in order, on an enabled client; none on a disabled one. *)
Lemma get_multi_subreddit_posts_fetches subs limit category (s : State CS) :
  fetches (log (get_multi_subreddit_posts miner self subs limit category s)) =
  if enabled self
  then (fun sub => (sub, limit, category, "day")) <$>
         (match subs with Some l => l | None => subreddits self end)
  else [].
Proof.
  unfold get_multi_subreddit_posts. destruct (enabled self) eqn:He; cbn [negb].
  - apply multi_loop_fetches, He.
  - reflexivity.
Qed.
End Fetches.

(** * The claims *)

Section Claims.
Import RedditSentimentClient.

(** C1.  Every report of [get_sentiment_data] has [total_mentions] equal to
    the length of [posts] and counts that sum up to [total_mentions]; the
    result of [scrape_ticker_sentiment] has [total_posts] equal to the
    length of [all_posts] and counts that sum up to [total_posts]. *)
Theorem report_counts_consistent {CS} (miner : Outside CS) :
  (forall (self : Self) (tickers : list string) (limit : Z) (s : State CS)
          (t : string) (rep : TickerReport),
     result (get_sentiment_data miner self tickers limit s) !! t = Some rep ->
     total_mentions rep = length (posts rep) /\
     sum_counts (by_subreddit rep) = total_mentions rep) /\
  (forall (proxy : option string) (verbose : bool) (ticker : string)
          (max_posts : Z) (s : State CS),
     let res := result (StockSentimentScraper.scrape_ticker_sentiment miner
                          (StockSentimentScraper.__init__ proxy verbose)
                          ticker max_posts s) in
     StockSentimentScraper.total_posts res =
       length (StockSentimentScraper.all_posts res) /\
     sum_counts (StockSentimentScraper.by_subreddit res) =
       StockSentimentScraper.total_posts res).
Proof.
  split.
  - intros self tickers limit s t rep Hrep.
    unfold get_sentiment_data in Hrep.
    destruct (enabled self); cbn [negb] in Hrep.
    + pose proof (sentiment_loop_consistent miner self limit tickers ∅ s
                    (map_Forall_empty _)) as Hall.
      exact (Hall t rep Hrep).
    + cbn in Hrep. rewrite lookup_empty in Hrep. discriminate.
  - intros proxy verbose ticker max_posts s. cbv zeta.
    unfold StockSentimentScraper.scrape_ticker_sentiment.
    rewrite bind_run, result_after. cbn [datetime_now log result final fst snd].
    rewrite scrape_loop_total, scrape_loop_all_posts, scrape_loop_counts.
    + cbn [StockSentimentScraper.total_posts StockSentimentScraper.all_posts
             StockSentimentScraper.by_subreddit app].
      split; [rewrite length_fmap; reflexivity |].
      f_equal.
    + cbn [StockSentimentScraper.stock_subreddits StockSentimentScraper.__init__].
      apply (bool_decide_unpack _). vm_compute. exact I.
    + intros sub _. apply lookup_empty.
Qed.

Lemma report_counts_consistent_witness :
  exists rep,
    result (get_sentiment_data fresh_miner (__init__ None test_config)
              ["TSLA"] 20%Z fresh_state) !! "TSLA" = Some rep /\
    posts rep = [0; 1] /\
    total_mentions rep = length (posts rep) /\
    sum_counts (by_subreddit rep) = total_mentions rep.
Proof.
  eexists. split; [vm_compute; reflexivity |]. split; [reflexivity |].
  apply (proj1 (report_counts_consistent fresh_miner) (__init__ None test_config)
           ["TSLA"] 20%Z fresh_state "TSLA").
  vm_compute. reflexivity.
Defined.

(** C2.  On an enabled client, [search_ticker] searches every
    subreddit of its list whatever the earlier searches did, and returns the
    posts of the searches that returned: if the search of [X] raises and
    the search of [Y] returns [ys], the result for [[X; Y]] is [ys].  When
    every search raises, [get_sentiment_data(["TSLA"])] is the mapping with
    the single report of [TSLA], with 0 mentions, no post and no count. *)
Theorem per_subreddit_failure_isolation {CS} (miner : Outside CS) (self : Self)
  (ticker : string) (limit : Z) (s : State CS) :
  enabled self = true ->
  (forall subs,
     let r := search_ticker miner self ticker (Some subs) limit s in
     searched (log r) = subs /\ result r = (provenance (log r)).*2) /\
  (forall X Y ys cs1 cs2,
     search_subreddit miner X ticker limit "relevance" (st_out s) = (Raises, cs1) ->
     search_subreddit miner Y ticker limit "relevance" cs1 = (Returns ys, cs2) ->
     result (search_ticker miner self ticker (Some [X; Y]) limit s) = ys) /\
  ((forall sub q l so cs, (search_subreddit miner sub q l so cs).1 = Raises) ->
   exists now,
     result (get_sentiment_data miner self ["TSLA"] limit s) =
     {[ "TSLA" := {| ticker := "TSLA";
                     timestamp := now;
                     total_mentions := 0;
                     posts := [];
                     by_subreddit := ∅ |} ]}).
Proof.
  intros He. split; [| split].
  - intros subs. cbv zeta. unfold search_ticker. rewrite He. cbn [negb].
    split; [apply search_loop_searched |].
    apply (search_loop_result miner self ticker limit _ [] s).
  - intros X Y ys cs1 cs2 HX HY.
    unfold search_ticker. rewrite He. cbn [negb].
    rewrite search_loop_cons, HX, result_after.
    rewrite search_loop_cons. cbn [st_out]. rewrite HY, result_after.
    reflexivity.
  - intros Hraise. unfold get_sentiment_data. rewrite He. cbn [negb].
    rewrite sentiment_loop_cons. cbv zeta. rewrite result_after. cbn [sentiment_loop].
    eexists. unfold ret, result at 1. cbn [fst]. unfold report_of.
    assert (Hres : result (search_ticker miner self "TSLA" None limit s) = []).
    { unfold search_ticker. rewrite He. cbn [negb].
      apply search_loop_all_raise, Hraise. }
    rewrite Hres. cbn. reflexivity.
Qed.

Lemma per_subreddit_failure_isolation_witness :
  enabled (__init__ None test_config) = true /\
  result (search_ticker fresh_miner (__init__ None test_config) "TSLA"
            (Some ["investing"; "stocks"]) 20%Z fresh_state) = [1] /\
  exists now,
    result (get_sentiment_data failing_miner (__init__ None test_config) ["TSLA"]
              20%Z unit_state) =
    {[ "TSLA" := {| ticker := "TSLA";
                    timestamp := now;
                    total_mentions := 0;
                    posts := [];
                    by_subreddit := ∅ |} ]}.
Proof.
  split; [reflexivity |]. split.
  - apply (proj1 (proj2 (per_subreddit_failure_isolation fresh_miner
                           (__init__ None test_config) "TSLA" 20%Z fresh_state
                           eq_refl))
             "investing" "stocks" [1] 1 2); reflexivity.
  - apply (proj2 (proj2 (per_subreddit_failure_isolation failing_miner
                           (__init__ None test_config) "TSLA" 20%Z unit_state
                           eq_refl))).
    reflexivity.
Defined.

(** C3, as stated: a configuration whose [enabled] key is false.  The
    constructor reads [reddit_enabled], not [enabled]: the client built from
    [enabled_false_config] is enabled, calls the collaborator and returns
    its post. *)
Lemma enabled_false_still_fetches :
  let self := __init__ None enabled_false_config in
  let r := get_subreddit_posts caching_miner self "stocks" 50%Z "hot" "day"
             unit_state in
  cfg_enabled enabled_false_config = Some false /\
  enabled self = true /\
  result r = [0] /\
  log r = [EvFetch "stocks" 50%Z "hot" "day" (Returns [0]); delay_event self] /\
  ~ fetches_nothing caching_miner self unit_state.
Proof.
  cbv zeta. repeat split.
  intros (Hposts & _).
  specialize (Hposts "stocks" 50%Z "hot" "day").
  apply (f_equal result) in Hposts. vm_compute in Hposts. discriminate.
Qed.

(** C3, amended.  For a client constructed from a configuration in which
    [reddit_enabled] is false, every public fetch method returns the empty
    list, the empty mapping or [None], leaves the state as it is, and emits
    no event: no call into the collaborator and no sleep. *)
Theorem reddit_disabled_fetches_nothing {CS} (miner : Outside CS)
  (getenv : option string) (cfg : Config) (s : State CS) :
  cfg_reddit_enabled cfg = Some false ->
  fetches_nothing miner (__init__ getenv cfg) s.
Proof.
  intros Hcfg.
  assert (He : enabled (__init__ getenv cfg) = false)
    by (cbn; rewrite Hcfg; reflexivity).
  unfold fetches_nothing, get_subreddit_posts, search_ticker, get_post_details,
    get_multi_subreddit_posts, get_sentiment_data.
  rewrite He. cbn [negb]. repeat split.
Qed.

Lemma reddit_disabled_fetches_nothing_witness :
  cfg_reddit_enabled reddit_disabled_config = Some false /\
  fetches_nothing caching_miner (__init__ None reddit_disabled_config) unit_state.
Proof.
  split; [reflexivity |].
  apply (reddit_disabled_fetches_nothing caching_miner None reddit_disabled_config
           unit_state).
  reflexivity.
Defined.

(** C4, as stated: every field the post already had keeps its value.  A
    post that comes with a [subreddit] field loses that value to the tag. *)
Lemma search_ticker_overwrites_subreddit_field :
  let r := search_ticker fresh_miner (__init__ None test_config) "TSLA" None 20%Z
             fresh_state in
  result r = [0; 1] /\
  st_heap fresh_state 0 !! "subreddit" = Some (PyStr "r/stocks") /\
  st_heap (final r) 0 !! "subreddit" = Some (PyStr "wallstreetbets") /\
  ~ fields_preserved (st_heap fresh_state) (st_heap (final r)) 0.
Proof.
  cbv zeta. split; [reflexivity |]. split; [reflexivity |].
  split; [vm_compute; reflexivity |].
  intros Hkeep.
  specialize (Hkeep "subreddit" (PyStr "r/stocks") eq_refl).
  vm_compute in Hkeep. discriminate.
Qed.

(** C4, amended.  [search_ticker] writes its tags into the dicts the
    searches returned: whatever a post of the result held before, its
    [ticker_searched] is the requested ticker and its [subreddit] is the
    subreddit of the last search that returned it, so a value the post
    already had in one of the two fields is overwritten; every other field
    of every dict is as it was, and a dict that is not in the result is
    unchanged altogether.  The result of [scrape_ticker_sentiment] holds,
    for every post object a search returned, a new dict that carries the two
    tags [subreddit] and [ticker], whatever the post held in them, and
    agrees with the post on every other field; the scraper leaves the posts
    themselves as they were. *)
Theorem tagging_preserves_other_fields {CS} (miner : Outside CS) :
  (forall (self : Self) (ticker : string) (subs : option (list string))
          (limit : Z) (s : State CS) (p : loc),
     let r := search_ticker miner self ticker subs limit s in
     (forall k : string,
        k <> "subreddit" -> k <> "ticker_searched" ->
        st_heap (final r) p !! k = st_heap s p !! k) /\
     (p ∈ result r ->
        st_heap (final r) p !! "ticker_searched" = Some (PyStr ticker) /\
        exists sub : string,
          last_source (provenance (log r)) p = Some sub /\
          st_heap (final r) p !! "subreddit" = Some (PyStr sub)) /\
     (p ∉ result r -> st_heap (final r) p = st_heap s p)) /\
  (forall (self : StockSentimentScraper.Self) (ticker : string) (max_posts : Z)
          (s : State CS),
     let r := StockSentimentScraper.scrape_ticker_sentiment miner self ticker
                max_posts s in
     st_heap (final r) = st_heap s /\
     Forall2 (fun (new : Post) (sp : string * loc) =>
                new !! "subreddit" = Some (PyStr sp.1) /\
                new !! "ticker" = Some (PyStr ticker) /\
                forall k, k <> "subreddit" -> k <> "ticker" ->
                          new !! k = st_heap s sp.2 !! k)
             (StockSentimentScraper.all_posts (result r)) (provenance (log r))).
Proof.
  split.
  - intros self ticker subs limit s p. cbv zeta. split; [| split].
    + intros k Hk1 Hk2.
      unfold search_ticker. destruct (enabled self); cbn [negb]; [| reflexivity].
      apply search_loop_other_fields; assumption.
    + intros Hp. split.
      * apply search_ticker_ticker_searched, Hp.
      * apply search_ticker_last_source, Hp.
    + apply search_ticker_not_returned.
  - intros self ticker max_posts s. cbv zeta.
    unfold StockSentimentScraper.scrape_ticker_sentiment.
    rewrite bind_run, final_after, result_after, log_after.
    cbn [datetime_now log result final fst snd app].
    rewrite scrape_loop_heap, scrape_loop_all_posts.
    split; [reflexivity |].
    cbn [StockSentimentScraper.all_posts app].
    apply Forall2_fmap_l, Forall_Forall2_diag, Forall_forall.
    intros [sub p] _. unfold StockSentimentScraper.tagged. cbn [fst snd].
    split; [| split].
    + rewrite lookup_insert_ne by discriminate. apply lookup_insert_eq.
    + apply lookup_insert_eq.
    + intros k Hk1 Hk2. rewrite !lookup_insert_ne by congruence. reflexivity.
Qed.

Lemma tagging_preserves_other_fields_witness :
  let r := search_ticker fresh_miner (__init__ None test_config) "TSLA" None 20%Z
             fresh_state in
  ("title" <> "subreddit" /\ "title" <> "ticker_searched" /\
   st_heap (final r) 0 !! "title" = st_heap fresh_state 0 !! "title") /\
  (0 ∈ result r /\
   st_heap fresh_state 0 !! "subreddit" = Some (PyStr "r/stocks") /\
   st_heap (final r) 0 !! "ticker_searched" = Some (PyStr "TSLA") /\
   exists sub : string,
     last_source (provenance (log r)) 0 = Some sub /\
     st_heap (final r) 0 !! "subreddit" = Some (PyStr sub)) /\
  ((2 ∉ result r) /\ st_heap (final r) 2 = st_heap fresh_state 2).
Proof.
  cbv zeta.
  pose proof (proj1 (tagging_preserves_other_fields fresh_miner)
                (__init__ None test_config) "TSLA" None 20%Z fresh_state 0)
    as (Hframe & Htags & _).
  pose proof (proj1 (tagging_preserves_other_fields fresh_miner)
                (__init__ None test_config) "TSLA" None 20%Z fresh_state 2)
    as (_ & _ & Hrest).
  assert (Hin : 0 ∈ result (search_ticker fresh_miner (__init__ None test_config)
                              "TSLA" None 20%Z fresh_state))
    by (vm_compute; left).
  assert (Hout : 2 ∉ result (search_ticker fresh_miner (__init__ None test_config)
                               "TSLA" None 20%Z fresh_state)).
  { replace (result _) with [0; 1] by reflexivity.
    rewrite !not_elem_of_cons. repeat split; [discriminate .. |].
    apply not_elem_of_nil. }
  split; [| split].
  - split; [discriminate |]. split; [discriminate |].
    apply Hframe; discriminate.
  - split; [exact Hin |]. split; [reflexivity |]. exact (Htags Hin).
  - split; [exact Hout |]. exact (Hrest Hout).
Defined.

(** C5, as stated: one delay per collaborator call issued.  A call that
    raises is followed by no delay. *)
Lemma raised_call_has_no_delay :
  let r := get_subreddit_posts failing_miner (__init__ None test_config)
             "stocks" 50%Z "hot" "day" unit_state in
  log r = [EvFetch "stocks" 50%Z "hot" "day" Raises] /\
  count is_call (log r) = 1 /\
  count is_delay (log r) = 0 /\
  ~ paced_per_call (log r).
Proof.
  cbv zeta. repeat split.
  unfold paced_per_call. vm_compute. discriminate.
Qed.

(** C5, amended.  In every execution of a public method of the facade, the
    number of delays equals the number of collaborator calls that returned
    normally.  On an enabled client [get_subreddit_posts] and
    [get_post_details] issue one call, [search_ticker] and
    [get_multi_subreddit_posts] one call per subreddit they iterate. *)
Theorem delay_once_per_returned_call {CS} (miner : Outside CS) (self : Self)
  (s : State CS) :
  (forall sub limit category time_filter,
     let l := log (get_subreddit_posts miner self sub limit category time_filter s) in
     count is_delay l = count is_returned_call l /\
     count is_call l = if enabled self then 1 else 0) /\
  (forall ticker subs limit,
     let l := log (search_ticker miner self ticker (Some subs) limit s) in
     count is_delay l = count is_returned_call l /\
     count is_call l = if enabled self then length subs else 0) /\
  (forall ticker limit,
     let l := log (search_ticker miner self ticker None limit s) in
     count is_delay l = count is_returned_call l /\
     count is_call l = if enabled self then length (subreddits self) else 0) /\
  (forall permalink,
     let l := log (get_post_details miner self permalink s) in
     count is_delay l = count is_returned_call l /\
     count is_call l = if enabled self then 1 else 0) /\
  (forall subs limit category,
     let l := log (get_multi_subreddit_posts miner self (Some subs) limit category s) in
     count is_delay l = count is_returned_call l /\
     count is_call l = if enabled self then length subs else 0) /\
  (forall limit category,
     let l := log (get_multi_subreddit_posts miner self None limit category s) in
     count is_delay l = count is_returned_call l /\
     count is_call l = if enabled self then length (subreddits self) else 0) /\
  (forall tickers limit,
     let l := log (get_sentiment_data miner self tickers limit s) in
     count is_delay l = count is_returned_call l).
Proof.
  repeat split; intros; cbv zeta.
  - eapply paced_counts, get_subreddit_posts_paced.
  - apply get_subreddit_posts_calls.
  - eapply paced_counts, search_ticker_paced.
  - unfold search_ticker. destruct (enabled self); cbn [negb].
    + apply search_loop_calls.
    + reflexivity.
  - eapply paced_counts, search_ticker_paced.
  - unfold search_ticker. destruct (enabled self); cbn [negb].
    + apply search_loop_calls.
    + reflexivity.
  - eapply paced_counts, get_post_details_paced.
  - apply get_post_details_calls.
  - eapply paced_counts, get_multi_subreddit_posts_paced.
  - unfold get_multi_subreddit_posts. destruct (enabled self) eqn:He; cbn [negb].
    + apply multi_loop_calls, He.
    + reflexivity.
  - eapply paced_counts, get_multi_subreddit_posts_paced.
  - unfold get_multi_subreddit_posts. destruct (enabled self) eqn:He; cbn [negb].
    + apply multi_loop_calls, He.
    + reflexivity.
  - eapply paced_counts, get_sentiment_data_paced.
Qed.

(** C6.  The minimum delay is [60 / r] for a configured rate limit [r > 0],
    and 2 for [r <= 0] and for a configuration without the
    [rate_limit_per_minute] key. *)
Theorem min_delay_of_rate_limit (getenv : option string) (cfg : Config) :
  (forall r, cfg_rate_limit_per_minute cfg = Some r -> (0 < r)%Z ->
     (min_delay (__init__ getenv cfg) == 60 / inject_Z r)%Q) /\
  (forall r, cfg_rate_limit_per_minute cfg = Some r -> (r <= 0)%Z ->
     (min_delay (__init__ getenv cfg) == 2)%Q) /\
  (cfg_rate_limit_per_minute cfg = None ->
     (min_delay (__init__ getenv cfg) == 2)%Q).
Proof.
  unfold __init__. cbn [min_delay].
  repeat split.
  - intros r -> Hr. cbn [from_option id].
    destruct (Z.ltb_spec 0 r); [reflexivity | lia].
  - intros r -> Hr. cbn [from_option id].
    destruct (Z.ltb_spec 0 r); [lia | reflexivity].
  - intros ->. reflexivity.
Qed.

Lemma min_delay_of_rate_limit_witness :
  (min_delay (__init__ None (rate_config (Some 30%Z))) == 60 / inject_Z 30)%Q /\
  (min_delay (__init__ None (rate_config (Some 0%Z))) == 2)%Q /\
  (min_delay (__init__ None (rate_config None)) == 2)%Q.
Proof.
  split; [| split].
  - apply (proj1 (min_delay_of_rate_limit None (rate_config (Some 30%Z))) 30%Z);
      [reflexivity | lia].
  - apply (proj1 (proj2 (min_delay_of_rate_limit None (rate_config (Some 0%Z)))) 0%Z);
      [reflexivity | lia].
  - apply (proj2 (proj2 (min_delay_of_rate_limit None (rate_config None)))).
    reflexivity.
Defined.




(** C8.  [get_multi_subreddit_posts] fetches every subreddit of its list
    (the configured list when it was given none), in order, whatever the
    earlier fetches did; a disabled client fetches none.  The mapping it
    returns has a key for a subreddit exactly when a fetch for that
    subreddit returned at least one post: a subreddit whose fetch returned
    no post or raised, and a subreddit that is not in the list, has no key,
    and no key is mapped to an empty list. *)
Theorem multi_subreddit_keys {CS} (miner : Outside CS) (self : Self)
  (subs : option (list string)) (limit : Z) (category : string) (s : State CS)
  (sub : string) :
  let r := get_multi_subreddit_posts miner self subs limit category s in
  let listed := match subs with Some l => l | None => subreddits self end in
  fetches (log r) =
    (if enabled self
     then (fun sub => (sub, limit, category, "day")) <$> listed
     else []) /\
  (is_Some (result r !! sub) <-> yielded sub (log r)) /\
  (is_Some (result r !! sub) -> enabled self = true /\ sub ∈ listed) /\
  result r !! sub <> Some [].
Proof.
  cbv zeta.
  assert (Hkeys :
    is_Some (result (get_multi_subreddit_posts miner self subs limit category s)
               !! sub) <->
    yielded sub (log (get_multi_subreddit_posts miner self subs limit category s))).
  { unfold get_multi_subreddit_posts. destruct (enabled self); cbn [negb].
    - rewrite multi_loop_keys, lookup_empty.
      split; [intros [[? ?] | ?]; [discriminate | assumption] | auto].
    - cbn. rewrite lookup_empty.
      split; [intros [? ?]; discriminate |].
      intros (l & c & t & ps & Hin & _). inversion Hin. }
  split; [apply get_multi_subreddit_posts_fetches |].
  split; [exact Hkeys |]. split.
  - intros Hsome. apply Hkeys in Hsome as (l & c & t & ps & Hin & _).
    apply elem_of_fetches in Hin.
    rewrite get_multi_subreddit_posts_fetches in Hin.
    destruct (enabled self); [| inversion Hin].
    split; [reflexivity |].
    apply list_elem_of_fmap in Hin as (sub' & Heq & Hsub').
    injection Heq as -> _ _ _. exact Hsub'.
  - unfold get_multi_subreddit_posts. destruct (enabled self); cbn [negb].
    + intros Hres. apply multi_loop_nonempty in Hres.
      rewrite lookup_empty in Hres. discriminate.
    + cbn. rewrite lookup_empty. discriminate.
Qed.

Lemma multi_subreddit_keys_witness :
  let r := get_multi_subreddit_posts sparse_miner (__init__ None test_config)
             (Some ["wallstreetbets"; "stocks"; "investing"]) 30%Z "hot"
             fresh_state in
  fetches (log r) = [("wallstreetbets", 30%Z, "hot", "day");
                     ("stocks", 30%Z, "hot", "day");
                     ("investing", 30%Z, "hot", "day")] /\
  (result r !! "wallstreetbets" = Some [0] /\ yielded "wallstreetbets" (log r)) /\
  (result r !! "stocks" = None /\ ~ yielded "stocks" (log r)) /\
  (result r !! "investing" = None /\ ~ yielded "investing" (log r)).
Proof.
  cbv zeta.
  pose proof (fun sub => multi_subreddit_keys sparse_miner (__init__ None test_config)
                (Some ["wallstreetbets"; "stocks"; "investing"]) 30%Z "hot"
                fresh_state sub) as Hkeys.
  cbv zeta in Hkeys.
  split; [exact (proj1 (Hkeys "wallstreetbets")) |].
  split; [| split].
  - split; [vm_compute; reflexivity |].
    apply (proj1 (proj2 (Hkeys "wallstreetbets"))).
    exists [0]. vm_compute. reflexivity.
  - split; [vm_compute; reflexivity |].
    intros Hy. apply (proj1 (proj2 (Hkeys "stocks"))) in Hy as [x Hx].
    vm_compute in Hx. discriminate.
  - split; [vm_compute; reflexivity |].
    intros Hy. apply (proj1 (proj2 (Hkeys "investing"))) in Hy as [x Hx].
    vm_compute in Hx. discriminate.
Defined.

(** C9.  On an enabled client, [search_ticker] with
    [subreddits=None] searches exactly the configured subreddits, in their
    configured order (the default pair when the configuration has no
    [subreddits] key); it returns the posts of the searches that returned,
    and their source subreddits follow the configured order. *)
Theorem search_ticker_default_subreddits {CS} (miner : Outside CS)
  (getenv : option string) (cfg : Config) (ticker : string) (limit : Z)
  (s : State CS) :
  enabled (__init__ getenv cfg) = true ->
  let r := search_ticker miner (__init__ getenv cfg) ticker None limit s in
  let configured := match cfg_subreddits cfg with
                    | Some subs => subs
                    | None => ["wallstreetbets"; "stocks"]
                    end in
  searched (log r) = configured /\
  result r = (provenance (log r)).*2 /\
  in_order_of configured (provenance (log r)).*1.
Proof.
  intros He. cbv zeta. unfold search_ticker. rewrite He. cbn [negb].
  assert (Hsubs : subreddits (__init__ getenv cfg) =
                  match cfg_subreddits cfg with
                  | Some subs => subs
                  | None => ["wallstreetbets"; "stocks"]
                  end)
    by (cbn; destruct (cfg_subreddits cfg); reflexivity).
  rewrite Hsubs. split; [| split].
  - apply search_loop_searched.
  - apply (search_loop_result miner _ ticker limit _ [] s).
  - apply search_loop_sources.
Qed.

Lemma search_ticker_default_subreddits_witness :
  let r := search_ticker fresh_miner (__init__ None test_config) "TSLA" None 20%Z
             fresh_state in
  enabled (__init__ None test_config) = true /\
  searched (log r) = ["wallstreetbets"; "stocks"] /\
  result r = (provenance (log r)).*2 /\
  in_order_of ["wallstreetbets"; "stocks"] (provenance (log r)).*1.
Proof.
  split; [reflexivity |].
  apply (search_ticker_default_subreddits fresh_miner None test_config "TSLA" 20%Z
           fresh_state).
  reflexivity.
Defined.

(** C10.  [search_ticker] with the empty subreddit list returns the empty
    list without calling the collaborator and without sleeping, whatever
    the configured subreddits are. *)
Theorem search_ticker_empty_list {CS} (miner : Outside CS) (self : Self)
  (ticker : string) (limit : Z) (s : State CS) :
  search_ticker miner self ticker (Some []) limit s = ([], s, []).
Proof. unfold search_ticker. destruct (enabled self); reflexivity. Qed.

End Claims.

(** * Further properties of the two files *)

(** ** Sleeps and call arguments of a log *)

Lemma sleeps_app l1 l2 : sleeps (l1 ++ l2) = sleeps l1 ++ sleeps l2.
Proof. unfold sleeps. apply omap_app. Qed.

Lemma searches_app l1 l2 : searches (l1 ++ l2) = searches l1 ++ searches l2.
Proof. unfold searches. apply omap_app. Qed.

(** In a paced log every sleep has the bounds of the pacing, and there is
    one sleep per call that returned. *)
Lemma paced_sleeps lo hi l :
  paced lo hi l -> sleeps l = replicate (count is_returned_call l) (lo, hi).
Proof.
  induction 1 as [| e l He _ IH | e l Hc He _ IH].
  - reflexivity.
  - assert (Hs : sleeps (e :: EvSleep lo hi :: l) = (lo, hi) :: sleeps l)
      by (destruct e; try discriminate; reflexivity).
    rewrite Hs, !count_cons, He, IH. reflexivity.
  - assert (Hs : sleeps (e :: l) = sleeps l)
      by (destruct e; try discriminate; reflexivity).
    rewrite Hs, count_cons, He, IH. reflexivity.
Qed.

Section FacadeMore.
Import RedditSentimentClient.

Lemma min_delay_positive (getenv : option string) (cfg : Config) :
  (0 < min_delay (__init__ getenv cfg))%Q.
Proof.
  unfold __init__. cbn [min_delay].
  destruct (Z.ltb_spec 0 (default 30%Z (cfg_rate_limit_per_minute cfg)))
    as [Hpos | Hneg]; [| reflexivity].
  apply Qlt_shift_div_l.
  - unfold Qlt. cbn. lia.
  - reflexivity.
Qed.

Lemma min_delay_at_most_60 (getenv : option string) (cfg : Config) :
  (min_delay (__init__ getenv cfg) <= 60)%Q.
Proof.
  unfold __init__. cbn [min_delay].
  destruct (Z.ltb_spec 0 (default 30%Z (cfg_rate_limit_per_minute cfg)))
    as [Hr | Hr]; [| discriminate].
  apply Qle_shift_div_r; [unfold Qlt; cbn; lia |].
  unfold Qle. cbn. lia.
Qed.

(** X1.  Whatever the configuration, the bounds of the rate-limit sleep
    are positive and ordered, [0 < min_delay <= 1.5 * min_delay], and no
    larger than 60 and 90 seconds; every sleep of a public method of a
    client built from it has exactly these bounds. *)
Theorem rate_limit_sleep_bounds {CS} (miner : Outside CS)
  (getenv : option string) (cfg : Config) (s : State CS) :
  let self := __init__ getenv cfg in
  ((0 < lo self)%Q /\ (lo self <= hi self)%Q /\
   (lo self <= 60)%Q /\ (hi self <= 90)%Q) /\
  (forall sub limit category time_filter,
     Forall (eq (lo self, hi self))
       (sleeps (log (get_subreddit_posts miner self sub limit category
                       time_filter s)))) /\
  (forall ticker subs limit,
     Forall (eq (lo self, hi self))
       (sleeps (log (search_ticker miner self ticker subs limit s)))) /\
  (forall permalink,
     Forall (eq (lo self, hi self))
       (sleeps (log (get_post_details miner self permalink s)))) /\
  (forall subs limit category,
     Forall (eq (lo self, hi self))
       (sleeps (log (get_multi_subreddit_posts miner self subs limit category s)))) /\
  (forall tickers limit,
     Forall (eq (lo self, hi self))
       (sleeps (log (get_sentiment_data miner self tickers limit s)))).
Proof.
  cbv zeta. split.
  - pose proof (min_delay_positive getenv cfg) as Hpos.
    unfold lo, hi. repeat split.
    + exact Hpos.
    + rewrite <- (Qmult_1_r (min_delay (__init__ getenv cfg))) at 1.
      apply Qmult_le_l; [exact Hpos | discriminate].
    + apply min_delay_at_most_60.
    + apply Qle_trans with (60 * (3 # 2))%Q; [| discriminate].
      apply Qmult_le_compat_r; [apply min_delay_at_most_60 | discriminate].
  - repeat split; intros.
    + rewrite (paced_sleeps _ _ _ (get_subreddit_posts_paced miner _ _ _ _ _ s)).
      apply Forall_replicate. reflexivity.
    + rewrite (paced_sleeps _ _ _ (search_ticker_paced miner _ _ _ _ s)).
      apply Forall_replicate. reflexivity.
    + rewrite (paced_sleeps _ _ _ (get_post_details_paced miner _ _ s)).
      apply Forall_replicate. reflexivity.
    + rewrite (paced_sleeps _ _ _ (get_multi_subreddit_posts_paced miner _ _ _ _ s)).
      apply Forall_replicate. reflexivity.
    + rewrite (paced_sleeps _ _ _ (get_sentiment_data_paced miner _ _ _ s)).
      apply Forall_replicate. reflexivity.
Qed.

Section FacadeRuns.
Context {CS : Type} (miner : Outside CS) (self : Self).

Lemma get_subreddit_posts_heap sub limit category time_filter (s : State CS) :
  st_heap (final (get_subreddit_posts miner self sub limit category time_filter s))
  = st_heap s.
Proof.
  destruct (enabled self) eqn:He.
  - rewrite get_subreddit_posts_run by assumption.
    destruct (fetch_subreddit_posts _ _ _ _ _ _) as [[ps |] cs]; reflexivity.
  - rewrite get_subreddit_posts_disabled by assumption. reflexivity.
Qed.

Lemma multi_loop_heap limit category subs results (s : State CS) :
  st_heap (final (multi_loop miner self limit category subs results s)) = st_heap s.
Proof.
  revert results s. induction subs as [| sub rest IH]; intros results s.
  - reflexivity.
  - rewrite multi_loop_cons. cbv zeta.
    rewrite final_after, IH. apply get_subreddit_posts_heap.
Qed.

Lemma search_loop_searches ticker limit subs acc (s : State CS) :
  searches (log (search_loop miner self ticker limit subs acc s)) =
  (fun sub => (sub, ticker, limit, "relevance")) <$> subs.
Proof.
  revert acc s. induction subs as [| sub rest IH]; intros acc s.
  - reflexivity.
  - rewrite search_loop_cons.
    destruct (search_subreddit _ _ _ _ _ _) as [[ps |] cs];
      rewrite log_after; cbn; rewrite IH; reflexivity.
Qed.

(** The only events of the loop of [search_ticker] are searches and
    sleeps. *)
Lemma search_loop_no_fetch ticker limit subs acc (s : State CS) :
  fetches (log (search_loop miner self ticker limit subs acc s)) = [].
Proof.
  revert acc s. induction subs as [| sub rest IH]; intros acc s.
  - reflexivity.
  - rewrite search_loop_cons.
    destruct (search_subreddit _ _ _ _ _ _) as [[ps |] cs];
      rewrite log_after; cbn; apply IH.
Qed.
End FacadeRuns.

(** X2.  [get_subreddit_posts], [get_post_details] and
    [get_multi_subreddit_posts] never write to a post: they leave the
    contents of every dict as they were, whatever the collaborator does. *)
Theorem fetch_methods_leave_posts_alone {CS} (miner : Outside CS) (self : Self)
  (s : State CS) :
  (forall sub limit category time_filter,
     st_heap (final (get_subreddit_posts miner self sub limit category
                       time_filter s)) = st_heap s) /\
  (forall permalink,
     st_heap (final (get_post_details miner self permalink s)) = st_heap s) /\
  (forall subs limit category,
     st_heap (final (get_multi_subreddit_posts miner self subs limit category s))
     = st_heap s).
Proof.
  split; [| split].
  - intros. apply get_subreddit_posts_heap.
  - intros permalink. unfold get_post_details, bind, call_details.
    destruct (enabled self); cbn; [| reflexivity].
    destruct (scrape_post_details miner permalink (st_out s)) as [[d |] cs];
      reflexivity.
  - intros subs limit category. unfold get_multi_subreddit_posts.
    destruct (enabled self); cbn [negb]; [| reflexivity].
    apply multi_loop_heap.
Qed.

(** X3.  [search_ticker] leaves alone every post that is not in its
    result: the whole dict is as it was before the call. *)
Theorem search_ticker_leaves_other_posts_alone {CS} (miner : Outside CS)
  (self : Self) (ticker : string) (subs : option (list string)) (limit : Z)
  (s : State CS) (p : loc) :
  let r := search_ticker miner self ticker subs limit s in
  p ∉ result r -> st_heap (final r) p = st_heap s p.
Proof.
  cbv zeta. rewrite search_ticker_result.
  unfold search_ticker. destruct (enabled self); cbn [negb].
  - apply search_loop_untouched.
  - reflexivity.
Qed.

Lemma search_ticker_leaves_other_posts_alone_witness :
  let r := search_ticker fresh_miner (__init__ None test_config) "TSLA" None 20%Z
             fresh_state in
  result r = [0; 1] /\ (7 ∉ result r) /\
  st_heap (final r) 7 = st_heap fresh_state 7.
Proof.
  cbv zeta.
  assert (Hnot : 7 ∉ result (search_ticker fresh_miner (__init__ None test_config)
                               "TSLA" None 20%Z fresh_state)).
  { replace (result _) with [0; 1] by reflexivity.
    rewrite !not_elem_of_cons. repeat split; [lia | lia | apply not_elem_of_nil]. }
  split; [reflexivity |]. split; [exact Hnot |].
  apply (search_ticker_leaves_other_posts_alone fresh_miner
           (__init__ None test_config) "TSLA" None 20%Z fresh_state 7).
  exact Hnot.
Defined.

(** X4.  On an enabled client [search_ticker] issues, for the subreddits of
    the list it was given (the configured list when it was given none), in
    order, one search each with the ticker as query, [limit_per_subreddit]
    as limit and sort ["relevance"], and no fetch. *)
Theorem search_ticker_call_arguments {CS} (miner : Outside CS) (self : Self)
  (ticker : string) (subs : option (list string)) (limit : Z) (s : State CS) :
  enabled self = true ->
  let r := search_ticker miner self ticker subs limit s in
  searches (log r) =
    (fun sub => (sub, ticker, limit, "relevance")) <$>
      (match subs with Some l => l | None => subreddits self end) /\
  fetches (log r) = [].
Proof.
  intros He. cbv zeta. unfold search_ticker. rewrite He. cbn [negb].
  split; [apply search_loop_searches | apply search_loop_no_fetch].
Qed.

Lemma search_ticker_call_arguments_witness :
  let self := __init__ None test_config in
  let r := search_ticker fresh_miner self "TSLA" (Some ["investing"; "options"])
             5%Z fresh_state in
  enabled self = true /\
  searches (log r) =
    [("investing", "TSLA", 5%Z, "relevance"); ("options", "TSLA", 5%Z, "relevance")] /\
  fetches (log r) = [].
Proof.
  cbv zeta. split; [reflexivity |].
  apply (search_ticker_call_arguments fresh_miner (__init__ None test_config)
           "TSLA" (Some ["investing"; "options"]) 5%Z fresh_state).
  reflexivity.
Defined.

(** X5.  On an enabled client [get_multi_subreddit_posts] fetches the
    subreddits of the list it was given (the configured list when it was
    given none), in order, each with [limit_per_sub], the given category and
    the time filter ["day"], whatever the earlier fetches did. *)
Theorem get_multi_subreddit_posts_call_arguments {CS} (miner : Outside CS)
  (self : Self) (subs : option (list string)) (limit : Z) (category : string)
  (s : State CS) :
  enabled self = true ->
  fetches (log (get_multi_subreddit_posts miner self subs limit category s)) =
  (fun sub => (sub, limit, category, "day")) <$>
    (match subs with Some l => l | None => subreddits self end).
Proof.
  intros He. unfold get_multi_subreddit_posts. rewrite He. cbn [negb].
  apply multi_loop_fetches, He.
Qed.

Lemma get_multi_subreddit_posts_call_arguments_witness :
  let self := __init__ None test_config in
  enabled self = true /\
  fetches (log (get_multi_subreddit_posts fresh_miner self
                  (Some ["investing"; "stocks"]) 30%Z "top" fresh_state)) =
  [("investing", 30%Z, "top", "day"); ("stocks", 30%Z, "top", "day")].
Proof.
  cbv zeta. split; [reflexivity |].
  apply (get_multi_subreddit_posts_call_arguments fresh_miner
           (__init__ None test_config) (Some ["investing"; "stocks"]) 30%Z "top"
           fresh_state).
  reflexivity.
Defined.

Section MultiValues.
Context {CS : Type} (miner : Outside CS) (self : Self).

(** A non-empty result of [get_subreddit_posts] is the list a fetch
    returned. *)
Lemma get_subreddit_posts_event sub limit category time_filter (s : State CS) :
  result (get_subreddit_posts miner self sub limit category time_filter s) <> [] ->
  EvFetch sub limit category time_filter
    (Returns (result (get_subreddit_posts miner self sub limit category
                        time_filter s)))
  ∈ log (get_subreddit_posts miner self sub limit category time_filter s).
Proof.
  destruct (enabled self) eqn:He.
  - rewrite get_subreddit_posts_run by assumption.
    destruct (fetch_subreddit_posts _ _ _ _ _ _) as [[ps |] cs]; cbn.
    + intros _. left.
    + congruence.
  - rewrite get_subreddit_posts_disabled by assumption. cbn. congruence.
Qed.

(** Every fetch event of [get_subreddit_posts] is for its subreddit and
    carries its result. *)
Lemma get_subreddit_posts_event_inv sub limit category time_filter (s : State CS)
  sub' limit' category' time_filter' ps :
  EvFetch sub' limit' category' time_filter' (Returns ps)
  ∈ log (get_subreddit_posts miner self sub limit category time_filter s) ->
  sub' = sub /\
  ps = result (get_subreddit_posts miner self sub limit category time_filter s).
Proof.
  destruct (enabled self) eqn:He.
  - rewrite get_subreddit_posts_run by assumption.
    destruct (fetch_subreddit_posts _ _ _ _ _ _) as [[qs |] cs]; cbn; intros Hin.
    + apply elem_of_cons in Hin as [Heq | Hin].
      * injection Heq as -> -> -> -> ->. auto.
      * apply list_elem_of_singleton in Hin. discriminate.
    + apply list_elem_of_singleton in Hin. discriminate.
  - rewrite get_subreddit_posts_disabled by assumption. cbn.
    intros Hin. inversion Hin.
Qed.

Lemma multi_loop_value limit category subs results (s : State CS) sub ps :
  result (multi_loop miner self limit category subs results s) !! sub = Some ps ->
  results !! sub = Some ps \/
  (EvFetch sub limit category "day" (Returns ps)
     ∈ log (multi_loop miner self limit category subs results s) /\ ps <> []).
Proof.
  revert results s. induction subs as [| sub0 rest IH]; intros results s.
  - cbn. auto.
  - rewrite multi_loop_cons. cbv zeta. rewrite result_after, log_after.
    intros Hres. apply IH in Hres as [Hres | [Hin Hne]].
    + destruct (truthy _) eqn:Ht; [| auto].
      apply truthy_true in Ht.
      destruct (decide (sub0 = sub)) as [-> | Hsub].
      * rewrite lookup_insert_eq in Hres. injection Hres as <-.
        right. split; [| exact Ht].
        apply elem_of_app. left. apply get_subreddit_posts_event, Ht.
      * rewrite lookup_insert_ne in Hres by exact Hsub. auto.
    + right. split; [| exact Hne]. apply elem_of_app. right. exact Hin.
Qed.

Lemma multi_loop_other_key limit category subs results (s : State CS) sub :
  sub ∉ subs ->
  result (multi_loop miner self limit category subs results s) !! sub
  = results !! sub.
Proof.
  revert results s. induction subs as [| sub0 rest IH]; intros results s Hnin.
  - reflexivity.
  - apply not_elem_of_cons in Hnin as [Hne Hnin].
    rewrite multi_loop_cons. cbv zeta. rewrite result_after, IH by exact Hnin.
    destruct (truthy _); [| reflexivity].
    apply lookup_insert_ne. congruence.
Qed.

Lemma multi_loop_last_value limit category subs results (s : State CS) sub ps :
  NoDup subs ->
  EvFetch sub limit category "day" (Returns ps)
    ∈ log (multi_loop miner self limit category subs results s) ->
  ps <> [] ->
  result (multi_loop miner self limit category subs results s) !! sub = Some ps.
Proof.
  intros Hnd. revert results s.
  induction Hnd as [| sub0 rest Hnin Hnd IH]; intros results s Hin Hne.
  - inversion Hin.
  - revert Hin. rewrite multi_loop_cons. cbv zeta. rewrite result_after, log_after.
    intros Hin. apply elem_of_app in Hin as [Hin | Hin].
    + apply get_subreddit_posts_event_inv in Hin as [-> Hps].
      rewrite multi_loop_other_key by exact Hnin.
      rewrite <- Hps.
      assert (Ht : truthy ps = true) by (apply truthy_true; exact Hne).
      rewrite Ht. apply lookup_insert_eq.
    + apply IH; assumption.
Qed.
End MultiValues.

(** X6.  In the mapping [get_multi_subreddit_posts] returns, the value of a
    subreddit is a non-empty list that a fetch of that subreddit returned;
    when the subreddits of the list are distinct, each subreddit whose fetch
    returned a non-empty list is mapped to exactly that list. *)
Theorem get_multi_subreddit_posts_values {CS} (miner : Outside CS) (self : Self)
  (subs : option (list string)) (limit : Z) (category : string) (s : State CS) :
  let r := get_multi_subreddit_posts miner self subs limit category s in
  (forall sub ps,
     result r !! sub = Some ps ->
     EvFetch sub limit category "day" (Returns ps) ∈ log r /\ ps <> []) /\
  (NoDup (match subs with Some l => l | None => subreddits self end) ->
   forall sub ps,
     EvFetch sub limit category "day" (Returns ps) ∈ log r -> ps <> [] ->
     result r !! sub = Some ps).
Proof.
  cbv zeta. unfold get_multi_subreddit_posts.
  destruct (enabled self); cbn [negb].
  - split.
    + intros sub ps Hres. apply multi_loop_value in Hres as [Hres | Hres].
      * rewrite lookup_empty in Hres. discriminate.
      * exact Hres.
    + intros Hnd sub ps Hin Hne. apply multi_loop_last_value; assumption.
  - cbn. split.
    + intros sub ps Hres. rewrite lookup_empty in Hres. discriminate.
    + intros _ sub ps Hin. inversion Hin.
Qed.

Lemma get_multi_subreddit_posts_values_witness :
  let r := get_multi_subreddit_posts fresh_miner (__init__ None test_config)
             (Some ["investing"; "stocks"]) 30%Z "hot" fresh_state in
  NoDup ["investing"; "stocks"] /\
  (EvFetch "stocks" 30%Z "hot" "day" (Returns [1]) ∈ log r) /\
  result r !! "stocks" = Some [1] /\
  result r !! "investing" = None.
Proof.
  cbv zeta.
  assert (Hnd : NoDup ["investing"; "stocks"])
    by (apply (bool_decide_unpack _); vm_compute; exact I).
  assert (Hin : EvFetch "stocks" 30%Z "hot" "day" (Returns [1])
                ∈ log (get_multi_subreddit_posts fresh_miner
                         (__init__ None test_config)
                         (Some ["investing"; "stocks"]) 30%Z "hot" fresh_state)).
  { vm_compute. right. left. }
  split; [exact Hnd |]. split; [exact Hin |]. split; [| vm_compute; reflexivity].
  apply (proj2 (get_multi_subreddit_posts_values fresh_miner
                  (__init__ None test_config) (Some ["investing"; "stocks"])
                  30%Z "hot" fresh_state) Hnd "stocks" [1] Hin).
  discriminate.
Defined.

Lemma mentions_cons h k p ps :
  mentions h k (p :: ps) =
  (if decide (subreddit_of h p = k) then 1 else 0) + mentions h k ps.
Proof.
  unfold mentions. rewrite filter_cons.
  destruct (decide (subreddit_of h p = k)); reflexivity.
Qed.

(** The counting loop, started from the dict [d]: a key no post is counted
    under keeps its entry; any other key gains its number of posts. *)
Lemma count_by_subreddit_lookup h ps d k :
  count_by_subreddit h ps d !! k =
  if decide (mentions h k ps = 0) then d !! k
  else Some (default 0 (d !! k) + mentions h k ps).
Proof.
  revert d. induction ps as [| p ps IH]; intros d.
  - reflexivity.
  - cbn [count_by_subreddit]. fold (subreddit_of h p).
    set (sub := subreddit_of h p).
    set (d0 := match d !! sub with Some _ => d | None => <[sub := 0]> d end).
    assert (Hsub : <[sub := default 0 (d0 !! sub) + 1]> d0 !! sub
                   = Some (default 0 (d !! sub) + 1)).
    { rewrite lookup_insert_eq. f_equal. f_equal. unfold d0.
      destruct (d !! sub) as [n |] eqn:Hd.
      - rewrite Hd. reflexivity.
      - rewrite lookup_insert_eq. reflexivity. }
    assert (Hother : forall k', k' <> sub ->
              <[sub := default 0 (d0 !! sub) + 1]> d0 !! k' = d !! k').
    { intros k' Hk'. rewrite lookup_insert_ne by congruence. unfold d0.
      destruct (d !! sub); [reflexivity |].
      apply lookup_insert_ne. congruence. }
    rewrite IH, mentions_cons. fold sub.
    destruct (decide (sub = k)) as [<- | Hk].
    + rewrite Hsub. cbn [from_option id].
      destruct (decide (mentions h sub ps = 0)) as [-> | Hm].
      * rewrite decide_False by lia. f_equal; lia.
      * rewrite decide_False by lia. f_equal; lia.
    + rewrite Hother by congruence. cbn [Nat.add]. reflexivity.
Qed.

(** X7.  When what the counting loop of [get_sentiment_data] reads from
    each post is a string (the posts of [search_ticker] carry a string in
    [subreddit], and the default is the string ['unknown']), every key of
    the [by_subreddit] dict it builds from the empty dict is such a string,
    and the dict maps each string that occurs among the posts to the number
    of posts that have it, and no other. *)
Theorem count_by_subreddit_counts (h : heap) (ps : list loc) :
  string_subreddits h ps ->
  (forall k : pyval,
     is_Some (count_by_subreddit h ps ∅ !! k) ->
     exists sub : string,
       k = PyStr sub /\ exists p, p ∈ ps /\ subreddit_of h p = PyStr sub) /\
  (forall sub : string,
     count_by_subreddit h ps ∅ !! PyStr sub =
     if decide (mentions h (PyStr sub) ps = 0) then None
     else Some (mentions h (PyStr sub) ps)).
Proof.
  intros Hstr. split.
  - intros k [n Hk]. rewrite count_by_subreddit_lookup, lookup_empty in Hk.
    destruct (decide (mentions h k ps = 0)) as [| Hm]; [discriminate |].
    unfold mentions in Hm.
    destruct (filter (fun p => subreddit_of h p = k) ps) as [| p l] eqn:Hf;
      [contradiction |].
    assert (Hp : p ∈ filter (fun p => subreddit_of h p = k) ps)
      by (rewrite Hf; left).
    apply list_elem_of_filter in Hp as [Htag Hin].
    destruct (Hstr p Hin) as [sub Hsub].
    exists sub. split; [congruence |]. exists p. auto.
  - intros sub. rewrite count_by_subreddit_lookup, lookup_empty.
    destruct (decide (mentions h (PyStr sub) ps = 0)); reflexivity.
Qed.

Lemma count_by_subreddit_counts_witness :
  string_subreddits titled_heap [0; 1; 2] /\
  count_by_subreddit titled_heap [0; 1; 2] ∅ !! PyStr "r/stocks" = Some 3 /\
  count_by_subreddit titled_heap [0; 1; 2] ∅ !! PyStr "unknown" = None.
Proof.
  assert (Hstr : string_subreddits titled_heap [0; 1; 2])
    by (intros p _; exists "r/stocks"; reflexivity).
  split; [exact Hstr |]. split.
  - exact (eq_trans (proj2 (count_by_subreddit_counts titled_heap [0; 1; 2] Hstr)
                       "r/stocks") eq_refl).
  - exact (eq_trans (proj2 (count_by_subreddit_counts titled_heap [0; 1; 2] Hstr)
                       "unknown") eq_refl).
Defined.

Lemma provenance_searched (l : list Event) (sub : string) (p : loc) :
  (sub, p) ∈ provenance l -> sub ∈ searched l.
Proof.
  unfold provenance, searched. intros Hin.
  apply list_elem_of_bind in Hin as (e & Hsrc & He).
  apply list_elem_of_omap. exists e. split; [exact He |].
  destruct e as [sub' q limit sort [ps |] | | |]; try (inversion Hsrc; fail).
  cbn in Hsrc. apply list_elem_of_fmap in Hsrc as (p' & Heq & _).
  injection Heq as -> ->. reflexivity.
Qed.

Lemma mentions_positive h k ps :
  mentions h k ps <> 0 -> exists p, p ∈ ps /\ subreddit_of h p = k.
Proof.
  unfold mentions. intros Hm.
  destruct (filter (fun p => subreddit_of h p = k) ps) as [| p l] eqn:Hf;
    [contradiction |].
  exists p.
  assert (Hp : p ∈ filter (fun p => subreddit_of h p = k) ps)
    by (rewrite Hf; left).
  apply list_elem_of_filter in Hp as [Htag Hin]. auto.
Qed.

Section SentimentMore.
Context {CS : Type} (miner : Outside CS) (self : Self).

(** After [search_ticker], every post of the result carries a subreddit the
    call searched: the list it was given, or the configured one. *)
Lemma search_ticker_result_tagged ticker subs limit (s : State CS) (p : loc) :
  p ∈ result (search_ticker miner self ticker subs limit s) ->
  exists sub : string,
    sub ∈ (match subs with Some l => l | None => subreddits self end) /\
    st_heap (final (search_ticker miner self ticker subs limit s)) p
      !! "subreddit" = Some (PyStr sub).
Proof.
  rewrite search_ticker_result. unfold search_ticker.
  destruct (enabled self); cbn [negb].
  - intros Hp.
    destruct (search_loop_subreddit_tag miner self _ _ _ _ _ _ Hp)
      as (sub & Hin & Htag).
    exists sub. split; [| exact Htag].
    apply provenance_searched in Hin.
    rewrite search_loop_searched in Hin. exact Hin.
  - cbn. intros Hp. inversion Hp.
Qed.

Lemma report_of_counts_configured t ticker limit (s : State CS) :
  counts_configured self (report_of miner t (search_ticker miner self ticker None limit s)).
Proof.
  intros k [n Hk]. cbn [by_subreddit report_of] in Hk.
  rewrite count_by_subreddit_lookup, lookup_empty in Hk.
  destruct (decide (mentions _ k _ = 0)) as [| Hm]; [discriminate |].
  apply mentions_positive in Hm as (p & Hp & Htag).
  destruct (search_ticker_result_tagged ticker None limit s p Hp)
    as (sub & Hsub & Hsubtag).
  exists sub. split; [exact Hsub |].
  unfold subreddit_of in Htag. rewrite Hsubtag in Htag. cbn in Htag. congruence.
Qed.

Lemma sentiment_loop_counts_configured limit tickers results (s : State CS) :
  map_Forall (fun _ rep => counts_configured self rep) results ->
  map_Forall (fun _ rep => counts_configured self rep)
    (result (sentiment_loop miner self limit tickers results s)).
Proof.
  revert results s. induction tickers as [| t rest IH]; intros results s Hres.
  - exact Hres.
  - rewrite sentiment_loop_cons. cbv zeta. rewrite result_after.
    apply IH, map_Forall_insert_2; [apply report_of_counts_configured | exact Hres].
Qed.

(** The keys of the mapping are the tickers, and each report names its
    key. *)
Lemma sentiment_loop_keys limit tickers results (s : State CS) t :
  is_Some (result (sentiment_loop miner self limit tickers results s) !! t) <->
  is_Some (results !! t) \/ t ∈ tickers.
Proof.
  revert results s. induction tickers as [| t0 rest IH]; intros results s.
  - cbn. rewrite elem_of_nil. tauto.
  - rewrite sentiment_loop_cons. cbv zeta.
    rewrite result_after, IH, lookup_insert_is_Some, elem_of_cons.
    destruct (decide (t0 = t)) as [-> |]; intuition congruence.
Qed.

Lemma sentiment_loop_ticker_field limit tickers results (s : State CS) :
  map_Forall (fun t rep => ticker rep = t) results ->
  map_Forall (fun t rep => ticker rep = t)
    (result (sentiment_loop miner self limit tickers results s)).
Proof.
  revert results s. induction tickers as [| t rest IH]; intros results s Hres.
  - exact Hres.
  - rewrite sentiment_loop_cons. cbv zeta. rewrite result_after.
    apply IH, map_Forall_insert_2; [reflexivity | exact Hres].
Qed.

Lemma sentiment_loop_searches limit tickers results (s : State CS) :
  enabled self = true ->
  searches (log (sentiment_loop miner self limit tickers results s)) =
  tickers ≫= (fun t => (fun sub => (sub, t, limit, "relevance")) <$> subreddits self).
Proof.
  intros He. revert results s.
  induction tickers as [| t rest IH]; intros results s.
  - reflexivity.
  - rewrite sentiment_loop_cons. cbv zeta.
    rewrite log_after, searches_app, IH. cbn [mbind list_bind]. f_equal.
    unfold search_ticker. rewrite He. cbn [negb].
    apply search_loop_searches.
Qed.
End SentimentMore.

(** X8.  In every report of [get_sentiment_data], every key of
    [by_subreddit] is one of the client's configured subreddits: the bucket
    ['unknown'] is never used, unless a subreddit of that name is
    configured. *)
Theorem report_counts_are_per_configured_subreddit {CS} (miner : Outside CS)
  (self : Self) (tickers : list string) (limit : Z) (s : State CS)
  (t : string) (rep : TickerReport) (k : pyval) :
  result (get_sentiment_data miner self tickers limit s) !! t = Some rep ->
  is_Some (by_subreddit rep !! k) ->
  exists sub : string, sub ∈ subreddits self /\ k = PyStr sub.
Proof.
  unfold get_sentiment_data. destruct (enabled self); cbn [negb].
  - intros Hrep.
    pose proof (sentiment_loop_counts_configured miner self limit tickers ∅ s
                  (map_Forall_empty _)) as Hall.
    exact (Hall t rep Hrep k).
  - cbn. rewrite lookup_empty. discriminate.
Qed.

Lemma report_counts_are_per_configured_subreddit_witness :
  exists rep,
    result (get_sentiment_data fresh_miner (__init__ None test_config)
              ["TSLA"] 20%Z fresh_state) !! "TSLA" = Some rep /\
    by_subreddit rep !! PyStr "stocks" = Some 1 /\
    exists sub : string,
      sub ∈ subreddits (__init__ None test_config) /\ PyStr "stocks" = PyStr sub.
Proof.
  eexists. split; [vm_compute; reflexivity |]. split; [vm_compute; reflexivity |].
  eapply (report_counts_are_per_configured_subreddit fresh_miner
            (__init__ None test_config) ["TSLA"] 20%Z fresh_state "TSLA" _
            (PyStr "stocks")).
  - vm_compute. reflexivity.
  - exists 1. vm_compute. reflexivity.
Defined.

(** X9.  On an enabled client the mapping [get_sentiment_data] returns has
    exactly the given tickers as keys, each report carries its key in
    [ticker], and the collaborator is searched ticker by ticker, for each
    ticker in every configured subreddit in order, with the ticker as
    query, [limit_per_ticker] as limit and sort ["relevance"]. *)
Theorem get_sentiment_data_covers_tickers {CS} (miner : Outside CS)
  (self : Self) (tickers : list string) (limit : Z) (s : State CS) :
  enabled self = true ->
  let r := get_sentiment_data miner self tickers limit s in
  (forall t, is_Some (result r !! t) <-> t ∈ tickers) /\
  (forall t rep, result r !! t = Some rep -> ticker rep = t) /\
  searches (log r) =
    tickers ≫= (fun t => (fun sub => (sub, t, limit, "relevance")) <$>
                           subreddits self).
Proof.
  intros He. cbv zeta. unfold get_sentiment_data. rewrite He. cbn [negb].
  split; [| split].
  - intros t. rewrite sentiment_loop_keys, lookup_empty.
    split; [intros [[? ?] | ?]; [discriminate | assumption] | auto].
  - intros t rep Hrep.
    exact (sentiment_loop_ticker_field miner self limit tickers ∅ s
             (map_Forall_empty _) t rep Hrep).
  - apply sentiment_loop_searches, He.
Qed.

Lemma get_sentiment_data_covers_tickers_witness :
  let self := __init__ None test_config in
  let r := get_sentiment_data fresh_miner self ["TSLA"; "NVDA"] 5%Z fresh_state in
  enabled self = true /\
  (forall t, is_Some (result r !! t) <-> t ∈ ["TSLA"; "NVDA"]) /\
  (forall t rep, result r !! t = Some rep -> ticker rep = t) /\
  searches (log r) =
    [("wallstreetbets", "TSLA", 5%Z, "relevance"); ("stocks", "TSLA", 5%Z, "relevance");
     ("wallstreetbets", "NVDA", 5%Z, "relevance"); ("stocks", "NVDA", 5%Z, "relevance")].
Proof.
  cbv zeta. split; [reflexivity |].
  apply (get_sentiment_data_covers_tickers fresh_miner (__init__ None test_config)
           ["TSLA"; "NVDA"] 5%Z fresh_state).
  reflexivity.
Defined.
End FacadeMore.

(** ** The scraper, further *)

Section ScraperMore.
Import StockSentimentScraper.
Context {CS : Type} (miner : Outside CS) (self : Self).

Lemma scrape_loop_searches ticker max_posts subs results (s : State CS) :
  searches (log (scrape_loop miner ticker max_posts subs results s)) =
  (fun sub => (sub, ticker, max_posts, "relevance")) <$> subs.
Proof.
  revert results s. induction subs as [| sub rest IH]; intros results s.
  - reflexivity.
  - rewrite scrape_loop_cons.
    destruct (search_subreddit _ _ _ _ _ _) as [[ps |] cs];
      rewrite log_after; cbn; rewrite IH; reflexivity.
Qed.

Lemma scrape_loop_no_fetch ticker max_posts subs results (s : State CS) :
  fetches (log (scrape_loop miner ticker max_posts subs results s)) = [].
Proof.
  revert results s. induction subs as [| sub rest IH]; intros results s.
  - reflexivity.
  - rewrite scrape_loop_cons.
    destruct (search_subreddit _ _ _ _ _ _) as [[ps |] cs];
      rewrite log_after; cbn; apply IH.
Qed.

Lemma scrape_loop_paced ticker max_posts subs results (s : State CS) :
  paced 2 4 (log (scrape_loop miner ticker max_posts subs results s)).
Proof.
  revert results s. induction subs as [| sub rest IH]; intros results s.
  - constructor.
  - rewrite scrape_loop_cons.
    destruct (search_subreddit _ _ _ _ _ _) as [[ps |] cs];
      rewrite log_after; cbn [app].
    + apply paced_returned; [reflexivity | apply IH].
    + apply paced_raised; [reflexivity | reflexivity | apply IH].
Qed.

Lemma scrape_loop_fields ticker max_posts subs results (s : State CS) :
  StockSentimentScraper.ticker
    (result (scrape_loop miner ticker max_posts subs results s))
  = StockSentimentScraper.ticker results /\
  timestamp (result (scrape_loop miner ticker max_posts subs results s))
  = timestamp results.
Proof.
  revert results s. induction subs as [| sub rest IH]; intros results s.
  - auto.
  - rewrite scrape_loop_cons.
    destruct (search_subreddit _ _ _ _ _ _) as [[ps |] cs];
      rewrite result_after; [| apply IH].
    destruct (IH (if truthy ps
                  then record_posts (st_heap s) sub ticker ps results
                  else results)
                 (mkState cs (st_heap s))) as [-> ->].
    destruct ps; auto.
Qed.

Lemma scrape_loop_count_value ticker max_posts subs results (s : State CS) sub n :
  by_subreddit (result (scrape_loop miner ticker max_posts subs results s)) !! sub
  = Some n ->
  by_subreddit results !! sub = Some n \/
  exists ps,
    EvSearch sub ticker max_posts "relevance" (Returns ps)
      ∈ log (scrape_loop miner ticker max_posts subs results s) /\
    ps <> [] /\ n = length ps.
Proof.
  revert results s. induction subs as [| sub0 rest IH]; intros results s.
  - cbn. auto.
  - rewrite scrape_loop_cons.
    destruct (search_subreddit _ _ _ _ _ _) as [[ps |] cs];
      rewrite result_after, log_after; intros Hres;
      apply IH in Hres as [Hres | (qs & Hin & Hne & Hn)].
    + destruct ps as [| p ps]; [auto |]. cbn [truthy by_subreddit record_posts] in Hres.
      destruct (decide (sub0 = sub)) as [-> | Hsub].
      * rewrite lookup_insert_eq in Hres. injection Hres as <-.
        right. exists (p :: ps). split; [left | split; [discriminate | reflexivity]].
      * rewrite lookup_insert_ne in Hres by exact Hsub. auto.
    + right. exists qs. split; [| auto]. apply elem_of_app. right. exact Hin.
    + auto.
    + right. exists qs. split; [| auto]. apply elem_of_app. right. exact Hin.
Qed.

Lemma scrape_loop_other_key ticker max_posts subs results (s : State CS) sub :
  sub ∉ subs ->
  by_subreddit (result (scrape_loop miner ticker max_posts subs results s)) !! sub
  = by_subreddit results !! sub.
Proof.
  revert results s. induction subs as [| sub0 rest IH]; intros results s Hnin.
  - reflexivity.
  - apply not_elem_of_cons in Hnin as [Hne Hnin].
    rewrite scrape_loop_cons.
    destruct (search_subreddit _ _ _ _ _ _) as [[ps |] cs];
      rewrite result_after, IH by exact Hnin; [| reflexivity].
    destruct ps; [reflexivity |]. cbn [truthy by_subreddit record_posts].
    apply lookup_insert_ne. congruence.
Qed.

Lemma scrape_loop_event_sub ticker max_posts subs results (s : State CS)
  sub q l so r :
  EvSearch sub q l so r ∈ log (scrape_loop miner ticker max_posts subs results s) ->
  sub ∈ subs.
Proof.
  intros Hin.
  assert (Hs : (sub, q, l, so)
               ∈ searches (log (scrape_loop miner ticker max_posts subs results s))).
  { apply list_elem_of_omap. eexists. split; [exact Hin | reflexivity]. }
  rewrite scrape_loop_searches in Hs.
  apply list_elem_of_fmap in Hs as (sub' & Heq & Hsub).
  injection Heq as -> _ _ _. exact Hsub.
Qed.

Lemma scrape_loop_last_count ticker max_posts subs results (s : State CS) sub ps :
  NoDup subs ->
  EvSearch sub ticker max_posts "relevance" (Returns ps)
    ∈ log (scrape_loop miner ticker max_posts subs results s) ->
  ps <> [] ->
  by_subreddit (result (scrape_loop miner ticker max_posts subs results s)) !! sub
  = Some (length ps).
Proof.
  intros Hnd. revert results s.
  induction Hnd as [| sub0 rest Hnin Hnd IH]; intros results s Hin Hne.
  - inversion Hin.
  - revert Hin. rewrite scrape_loop_cons.
    destruct (search_subreddit _ _ _ _ _ _) as [[qs |] cs];
      rewrite result_after, log_after; intros Hin;
      apply elem_of_app in Hin as [Hin | Hin].
    + apply elem_of_cons in Hin as [Heq | Hin].
      * injection Heq as -> ->.
        rewrite scrape_loop_other_key by exact Hnin.
        destruct qs as [| q qs]; [contradiction |].
        cbn [truthy by_subreddit record_posts]. apply lookup_insert_eq.
      * apply list_elem_of_singleton in Hin. discriminate.
    + apply IH; assumption.
    + apply list_elem_of_singleton in Hin. discriminate.
    + apply IH; assumption.
Qed.

Lemma scrape_ticker_sentiment_run ticker max_posts (s : State CS) :
  scrape_ticker_sentiment miner self ticker max_posts s =
  scrape_loop miner ticker max_posts (stock_subreddits self)
    {| StockSentimentScraper.ticker := ticker;
       timestamp := now_isoformat miner (st_out s);
       total_posts := 0;
       by_subreddit := ∅;
       all_posts := [] |} s.
Proof.
  unfold scrape_ticker_sentiment. rewrite bind_run. cbn [datetime_now log result final fst snd].
  unfold after. cbn [app].
  destruct (scrape_loop _ _ _ _ _ _) as [[a b] c]. reflexivity.
Qed.

Lemma scrape_ticker_sentiment_consistent ticker max_posts (s : State CS) :
  NoDup (stock_subreddits self) ->
  total_posts (result (scrape_ticker_sentiment miner self ticker max_posts s))
  = length (all_posts (result (scrape_ticker_sentiment miner self ticker max_posts s)))
  /\
  sum_counts (by_subreddit (result (scrape_ticker_sentiment miner self ticker
                                      max_posts s)))
  = total_posts (result (scrape_ticker_sentiment miner self ticker max_posts s)).
Proof.
  intros Hnd. rewrite scrape_ticker_sentiment_run.
  rewrite scrape_loop_total, scrape_loop_all_posts.
  rewrite scrape_loop_counts; [| exact Hnd | intros sub _; apply lookup_empty].
  cbn [total_posts all_posts by_subreddit app].
  split; [rewrite length_fmap; reflexivity |].
  f_equal.
Qed.
End ScraperMore.

Section ScraperClaims.
Import StockSentimentScraper.

(** X10.  In the result of [scrape_ticker_sentiment], a subreddit has a
    count only if a search of it returned a non-empty list, and the count
    is the length of that list; for the scraper that [__init__] builds,
    every subreddit whose search returned a non-empty list has that
    length as its count. *)
Theorem scrape_ticker_sentiment_counts {CS} (miner : Outside CS)
  (ticker : string) (max_posts : Z) (s : State CS) :
  (forall (self : Self) (sub : string) (n : nat),
     let r := scrape_ticker_sentiment miner self ticker max_posts s in
     by_subreddit (result r) !! sub = Some n ->
     exists ps,
       EvSearch sub ticker max_posts "relevance" (Returns ps) ∈ log r /\
       ps <> [] /\ n = length ps) /\
  (forall (proxy : option string) (verbose : bool) (sub : string) (ps : list loc),
     let r := scrape_ticker_sentiment miner (__init__ proxy verbose) ticker
                max_posts s in
     EvSearch sub ticker max_posts "relevance" (Returns ps) ∈ log r ->
     ps <> [] ->
     by_subreddit (result r) !! sub = Some (length ps)).
Proof.
  split.
  - intros self sub n. cbv zeta. rewrite scrape_ticker_sentiment_run.
    intros Hres. apply scrape_loop_count_value in Hres as [Hres | Hres].
    + cbn in Hres. rewrite lookup_empty in Hres. discriminate.
    + exact Hres.
  - intros proxy verbose sub ps. cbv zeta. rewrite scrape_ticker_sentiment_run.
    apply scrape_loop_last_count.
    cbn [stock_subreddits __init__].
    apply (bool_decide_unpack _). vm_compute. exact I.
Qed.

Lemma scrape_ticker_sentiment_counts_witness :
  let r := scrape_ticker_sentiment fresh_miner (__init__ None false) "TSLA" 10%Z
             fresh_state in
  (EvSearch "stocks" "TSLA" 10%Z "relevance" (Returns [1]) ∈ log r) /\
  by_subreddit (result r) !! "stocks" = Some 1 /\
  by_subreddit (result r) !! "investing" = None.
Proof.
  cbv zeta.
  assert (Hin : EvSearch "stocks" "TSLA" 10%Z "relevance" (Returns [1])
                ∈ log (scrape_ticker_sentiment fresh_miner (__init__ None false)
                         "TSLA" 10%Z fresh_state)).
  { vm_compute. do 2 right. left. }
  split; [exact Hin |]. split; [| vm_compute; reflexivity].
  apply (proj2 (scrape_ticker_sentiment_counts fresh_miner "TSLA" 10%Z fresh_state)
           None false "stocks" [1] Hin).
  discriminate.
Defined.

(** X11.  [scrape_ticker_sentiment] searches every subreddit of
    [stock_subreddits], in order, with the ticker as query, [max_posts] as
    limit and sort ["relevance"], whatever the earlier searches did; its
    result carries the ticker, and the time read before the first search;
    every sleep it makes is [uniform(2, 4)], one after each search that
    returned and none after a search that raised. *)
Theorem scrape_ticker_sentiment_searches {CS} (miner : Outside CS) (self : Self)
  (ticker : string) (max_posts : Z) (s : State CS) :
  let r := scrape_ticker_sentiment miner self ticker max_posts s in
  searches (log r) =
    (fun sub => (sub, ticker, max_posts, "relevance")) <$> stock_subreddits self /\
  fetches (log r) = [] /\
  StockSentimentScraper.ticker (result r) = ticker /\
  timestamp (result r) = now_isoformat miner (st_out s) /\
  sleeps (log r) = replicate (count is_returned_call (log r)) (2%Q, 4%Q) /\
  paced 2 4 (log r).
Proof.
  cbv zeta. rewrite scrape_ticker_sentiment_run.
  pose proof (scrape_loop_paced miner ticker max_posts (stock_subreddits self)
    {| StockSentimentScraper.ticker := ticker;
       timestamp := now_isoformat miner (st_out s);
       total_posts := 0; by_subreddit := ∅; all_posts := [] |} s) as Hpaced.
  split; [apply scrape_loop_searches |].
  split; [| split; [apply scrape_loop_fields | split; [apply scrape_loop_fields |]]].
  - apply scrape_loop_no_fetch.
  - split; [apply paced_sleeps |]; exact Hpaced.
Qed.

Section Batch.
Context {CS : Type} (miner : Outside CS) (self : Self).

Lemma multiple_loop_cons max_posts t rest all_results (s : State CS) :
  multiple_loop miner self max_posts (t :: rest) all_results s =
  let r := scrape_ticker_sentiment miner self t max_posts s in
  after (log r ++ [EvSleep 3 6])
    (multiple_loop miner self max_posts rest
       {| all_timestamp := all_timestamp all_results;
          tickers := <[t := result r]> (tickers all_results) |}
       (final r)).
Proof.
  cbn [multiple_loop]. rewrite bind_run. cbv zeta.
  unfold after, bind, emit. cbn [fst snd log].
  destruct (multiple_loop _ _ _ _ _ _) as [[a b] c]. cbn.
  rewrite <- app_assoc. reflexivity.
Qed.

Lemma scrape_ticker_sentiment_heap ticker max_posts (s : State CS) :
  st_heap (final (scrape_ticker_sentiment miner self ticker max_posts s)) = st_heap s.
Proof. rewrite scrape_ticker_sentiment_run. apply scrape_loop_heap. Qed.

Lemma multiple_loop_heap max_posts ts all_results (s : State CS) :
  st_heap (final (multiple_loop miner self max_posts ts all_results s)) = st_heap s.
Proof.
  revert all_results s. induction ts as [| t rest IH]; intros all_results s.
  - reflexivity.
  - rewrite multiple_loop_cons. cbv zeta.
    rewrite final_after, IH. apply scrape_ticker_sentiment_heap.
Qed.

Lemma multiple_loop_timestamp max_posts ts all_results (s : State CS) :
  all_timestamp (result (multiple_loop miner self max_posts ts all_results s))
  = all_timestamp all_results.
Proof.
  revert all_results s. induction ts as [| t rest IH]; intros all_results s.
  - reflexivity.
  - rewrite multiple_loop_cons. cbv zeta. rewrite result_after, IH. reflexivity.
Qed.

Lemma multiple_loop_keys max_posts ts all_results (s : State CS) t :
  is_Some (tickers (result (multiple_loop miner self max_posts ts all_results s)) !! t)
  <-> is_Some (tickers all_results !! t) \/ t ∈ ts.
Proof.
  revert all_results s. induction ts as [| t0 rest IH]; intros all_results s.
  - cbn. rewrite elem_of_nil. tauto.
  - rewrite multiple_loop_cons. cbv zeta.
    rewrite result_after, IH. cbn [tickers].
    rewrite lookup_insert_is_Some, elem_of_cons.
    destruct (decide (t0 = t)) as [-> |]; intuition congruence.
Qed.

(** Every entry of the mapping is the result of some run of
    [scrape_ticker_sentiment] for its key. *)
Lemma multiple_loop_entries (P : string -> Results -> Prop) max_posts ts
  all_results (s : State CS) :
  (forall t s', P t (result (scrape_ticker_sentiment miner self t max_posts s'))) ->
  map_Forall P (tickers all_results) ->
  map_Forall P (tickers (result (multiple_loop miner self max_posts ts all_results s))).
Proof.
  intros HP. revert all_results s.
  induction ts as [| t rest IH]; intros all_results s Hall.
  - exact Hall.
  - rewrite multiple_loop_cons. cbv zeta. rewrite result_after.
    apply IH. cbn [tickers]. apply map_Forall_insert_2; [apply HP | exact Hall].
Qed.

Lemma multiple_loop_searches max_posts ts all_results (s : State CS) :
  searches (log (multiple_loop miner self max_posts ts all_results s)) =
  ts ≫= (fun t => (fun sub => (sub, t, max_posts, "relevance")) <$>
                    stock_subreddits self).
Proof.
  revert all_results s. induction ts as [| t rest IH]; intros all_results s.
  - reflexivity.
  - rewrite multiple_loop_cons. cbv zeta.
    rewrite log_after, !searches_app, IH. cbn [mbind list_bind]. cbn [searches omap list_omap app].
    rewrite app_nil_r. f_equal.
    rewrite scrape_ticker_sentiment_run. apply scrape_loop_searches.
Qed.

Lemma multiple_loop_sleeps max_posts ts all_results (s : State CS) :
  exists ns : list nat,
    length ns = length ts /\
    sleeps (log (multiple_loop miner self max_posts ts all_results s)) =
    ns ≫= (fun n => replicate n (2%Q, 4%Q) ++ [(3%Q, 6%Q)]).
Proof.
  revert all_results s. induction ts as [| t rest IH]; intros all_results s.
  - exists []. split; reflexivity.
  - rewrite multiple_loop_cons. cbv zeta. rewrite log_after.
    match goal with
    | |- context [multiple_loop miner self max_posts rest ?a ?s'] =>
        destruct (IH a s') as (ns & Hlen & Hs)
    end.
    exists (count is_returned_call
              (log (scrape_ticker_sentiment miner self t max_posts s)) :: ns).
    split; [cbn; lia |].
    rewrite !sleeps_app, Hs. cbn [mbind list_bind].
    rewrite scrape_ticker_sentiment_run.
    rewrite (paced_sleeps _ _ _ (scrape_loop_paced miner t max_posts _ _ s)).
    reflexivity.
Qed.
End Batch.

(** X12.  The mapping under [tickers] in the result of
    [scrape_multiple_tickers] has exactly the given tickers as keys; each
    entry carries its key in [ticker], and, for the scraper that [__init__]
    builds, has [total_posts] equal to the length of [all_posts] and counts
    that sum up to [total_posts]. *)
Theorem scrape_multiple_tickers_entries {CS} (miner : Outside CS)
  (ts : list string) (max_posts : Z) (s : State CS) :
  (forall (self : Self) (t : string),
     is_Some (tickers (result (scrape_multiple_tickers miner self ts max_posts s))
                !! t) <-> t ∈ ts) /\
  (forall (self : Self) (t : string) (res : Results),
     tickers (result (scrape_multiple_tickers miner self ts max_posts s)) !! t
     = Some res ->
     StockSentimentScraper.ticker res = t) /\
  (forall (proxy : option string) (verbose : bool) (t : string) (res : Results),
     tickers (result (scrape_multiple_tickers miner (__init__ proxy verbose) ts
                        max_posts s)) !! t = Some res ->
     total_posts res = length (all_posts res) /\
     sum_counts (by_subreddit res) = total_posts res).
Proof.
  unfold scrape_multiple_tickers.
  split; [| split].
  - intros self t. rewrite bind_run, result_after.
    rewrite multiple_loop_keys. cbn [tickers]. rewrite lookup_empty.
    split; [intros [[? ?] | ?]; [discriminate | assumption] | auto].
  - intros self t res. rewrite bind_run, result_after. intros Hres.
    refine (multiple_loop_entries miner self
              (fun t res => StockSentimentScraper.ticker res = t)
              max_posts ts _ _ _ (map_Forall_empty _) t res Hres).
    intros t' s'. cbn beta. rewrite scrape_ticker_sentiment_run.
    apply scrape_loop_fields.
  - intros proxy verbose t res. rewrite bind_run, result_after. intros Hres.
    refine (multiple_loop_entries miner (__init__ proxy verbose)
              (fun _ res => total_posts res = length (all_posts res) /\
                            sum_counts (by_subreddit res) = total_posts res)
              max_posts ts _ _ _ (map_Forall_empty _) t res Hres).
    intros t' s'. cbn beta. apply scrape_ticker_sentiment_consistent.
    cbn [stock_subreddits __init__].
    apply (bool_decide_unpack _). vm_compute. exact I.
Qed.

Lemma scrape_multiple_tickers_entries_witness :
  exists res,
    tickers (result (scrape_multiple_tickers fresh_miner (__init__ None false)
                       ["TSLA"; "NVDA"] 10%Z fresh_state)) !! "NVDA" = Some res /\
    StockSentimentScraper.ticker res = "NVDA" /\
    total_posts res = 4 /\
    total_posts res = length (all_posts res) /\
    sum_counts (by_subreddit res) = total_posts res.
Proof.
  eexists. split; [vm_compute; reflexivity |].
  split; [| split; [reflexivity |]].
  - eapply (proj1 (proj2 (scrape_multiple_tickers_entries fresh_miner
                            ["TSLA"; "NVDA"] 10%Z fresh_state))
              (__init__ None false) "NVDA").
    vm_compute. reflexivity.
  - eapply (proj2 (proj2 (scrape_multiple_tickers_entries fresh_miner
                            ["TSLA"; "NVDA"] 10%Z fresh_state))
              None false "NVDA").
    vm_compute. reflexivity.
Defined.

(** X13.  [scrape_multiple_tickers] searches ticker by ticker, for each
    ticker every subreddit of [stock_subreddits] in order; after each
    ticker it sleeps [uniform(3, 6)] once, whatever the searches of that
    ticker did, on top of their [uniform(2, 4)] sleeps.  Its [timestamp] is
    the time read before the first search, and it leaves every post as it
    was. *)
Theorem scrape_multiple_tickers_calls {CS} (miner : Outside CS) (self : Self)
  (ts : list string) (max_posts : Z) (s : State CS) :
  let r := scrape_multiple_tickers miner self ts max_posts s in
  searches (log r) =
    ts ≫= (fun t => (fun sub => (sub, t, max_posts, "relevance")) <$>
                      stock_subreddits self) /\
  (exists ns : list nat,
     length ns = length ts /\
     sleeps (log r) = ns ≫= (fun n => replicate n (2%Q, 4%Q) ++ [(3%Q, 6%Q)])) /\
  all_timestamp (result r) = now_isoformat miner (st_out s) /\
  st_heap (final r) = st_heap s.
Proof.
  cbv zeta. unfold scrape_multiple_tickers.
  rewrite bind_run, log_after, result_after, final_after.
  cbn [datetime_now log result final fst snd app].
  split; [apply multiple_loop_searches |].
  split; [apply multiple_loop_sleeps |].
  split; [apply multiple_loop_timestamp | apply multiple_loop_heap].
Qed.

(** X14.  [scrape_hot_stocks(subreddit, limit)] makes the collaborator call
    that an enabled client's [get_subreddit_posts(subreddit, limit, "hot",
    "day")] makes, returns the same posts (the empty list when the call
    raises) and leaves the same state, but never sleeps. *)
Theorem scrape_hot_stocks_is_unpaced_fetch {CS} (miner : Outside CS)
  (client : RedditSentimentClient.Self) (subreddit : string) (limit : Z)
  (s : State CS) :
  RedditSentimentClient.enabled client = true ->
  let hot := scrape_hot_stocks miner subreddit limit s in
  let posts := RedditSentimentClient.get_subreddit_posts miner client subreddit
                 limit "hot" "day" s in
  result hot = result posts /\
  final hot = final posts /\
  log hot = List.filter is_call (log posts) /\
  fetches (log hot) = [(subreddit, limit, "hot", "day")] /\
  sleeps (log hot) = [].
Proof.
  intros He. cbv zeta.
  rewrite get_subreddit_posts_run by exact He.
  unfold scrape_hot_stocks, bind, call_fetch.
  destruct (fetch_subreddit_posts miner subreddit limit "hot" "day" (st_out s))
    as [[ps |] cs]; cbn; repeat split.
Qed.

Lemma scrape_hot_stocks_is_unpaced_fetch_witness :
  let client := RedditSentimentClient.__init__ None test_config in
  let hot := scrape_hot_stocks fresh_miner "wallstreetbets" 50%Z fresh_state in
  let posts := RedditSentimentClient.get_subreddit_posts fresh_miner client
                 "wallstreetbets" 50%Z "hot" "day" fresh_state in
  RedditSentimentClient.enabled client = true /\
  result hot = [0] /\
  result hot = result posts /\
  final hot = final posts /\
  log hot = List.filter is_call (log posts) /\
  fetches (log hot) = [("wallstreetbets", 50%Z, "hot", "day")] /\
  sleeps (log hot) = [].
Proof.
  cbv zeta. split; [reflexivity |]. split; [reflexivity |].
  apply (scrape_hot_stocks_is_unpaced_fetch fresh_miner
           (RedditSentimentClient.__init__ None test_config)
           "wallstreetbets" 50%Z fresh_state).
  reflexivity.
Defined.
End ScraperClaims.

(** ** Locating YARS *)

Section InitYars.
Import RedditSentimentClient.
Context {IS : Type} (import_yars : list string -> IS -> bool * IS).

Lemma init_yars_loop_cons location rest sys_path st :
  init_yars_loop import_yars (location :: rest) sys_path st =
  let sys_path' := if bool_decide (location ∈ sys_path) then sys_path
                   else location :: sys_path in
  if (import_yars sys_path' st).1
  then (Some location, sys_path', (import_yars sys_path' st).2, [(location, true)])
  else
    let r := init_yars_loop import_yars rest sys_path' (import_yars sys_path' st).2 in
    (r.1.1.1, r.1.1.2, r.1.2, (location, false) :: r.2).
Proof.
  cbn [init_yars_loop]. cbv zeta.
  destruct (import_yars _ st) as [[|] st']; cbn [fst snd]; [reflexivity |].
  destruct (init_yars_loop _ _ _ _) as [[[r p] st''] tried]. reflexivity.
Qed.


(** X16.  [_init_yars] only adds to [sys.path]: the entries it found stay,
    in place, behind the new ones; afterwards [sys.path] holds exactly the
    old entries and the locations that were tried, those whose import
    failed included; and it introduces no duplicate. *)
Theorem init_yars_sys_path (parent_src home_src : string)
  (sys_path : list string) (st : IS) :
  let r := _init_yars import_yars parent_src home_src sys_path st in
  sys_path `suffix_of` path_after r /\
  (forall x, x ∈ path_after r <-> x ∈ sys_path \/ x ∈ (attempts r).*1) /\
  (NoDup sys_path -> NoDup (path_after r)).
Proof.
  cbv zeta. unfold _init_yars.
  generalize [parent_src; home_src; "yars"] as locations.
  intros locations. revert sys_path st.
  induction locations as [| location rest IH]; intros sys_path st.
  - cbn. split; [reflexivity |]. split; [| auto].
    intros x. rewrite elem_of_nil. tauto.
  - rewrite init_yars_loop_cons. cbv zeta.
    set (sys_path' := if bool_decide (location ∈ sys_path) then sys_path
                      else location :: sys_path).
    assert (Hsuf : sys_path `suffix_of` sys_path').
    { unfold sys_path'. case_bool_decide; [reflexivity |].
      apply suffix_cons_r. reflexivity. }
    assert (Hmem : forall x, x ∈ sys_path' <-> x ∈ sys_path \/ x = location).
    { intros x. unfold sys_path'. case_bool_decide as Hin.
      - split; [auto |]. intros [? | ->]; assumption.
      - rewrite elem_of_cons. tauto. }
    assert (Hnd : NoDup sys_path -> NoDup sys_path').
    { intros Hnd. unfold sys_path'. case_bool_decide as Hin; [exact Hnd |].
      apply NoDup_cons_2; assumption. }
    destruct (import_yars sys_path' st).1 eqn:Hok.
    + unfold path_after, attempts. cbn [fst snd fmap list_fmap].
      split; [exact Hsuf |]. split; [| exact Hnd].
      intros x. rewrite Hmem, list_elem_of_singleton. tauto.
    + destruct (IH sys_path' (import_yars sys_path' st).2) as (IHsuf & IHmem & IHnd).
      unfold path_after, attempts in *. cbn [fst snd fmap list_fmap] in *.
      split; [etransitivity; eassumption |]. split; [| auto].
      intros x. rewrite IHmem, Hmem, elem_of_cons. tauto.
Qed.
End InitYars.

Lemma init_yars_sys_path_witness :
  let r := RedditSentimentClient._init_yars import_from_opt "/app/src"
             "/opt/yars/src" start_path tt in
  NoDup start_path /\
  loaded r = Some "/opt/yars/src" /\
  path_after r = ["/opt/yars/src"; "/app/src"; "/usr/lib/python3"; "/app"] /\
  NoDup (path_after r).
Proof.
  cbv zeta.
  assert (Hnd : NoDup start_path)
    by (apply (bool_decide_unpack _); vm_compute; exact I).
  split; [exact Hnd |]. split; [reflexivity |]. split; [reflexivity |].
  apply (proj2 (proj2 (init_yars_sys_path import_from_opt "/app/src"
                         "/opt/yars/src" start_path tt))).
  exact Hnd.
Defined.

(** ** Reports over a whole run *)

Section ReportsCurrent.
Import RedditSentimentClient.

Lemma provenance_app l1 l2 :
  provenance (l1 ++ l2) = provenance l1 ++ provenance l2.
Proof. unfold provenance. apply bind_app. Qed.

(** The counting loop reads the posts it counts and nothing else. *)
Lemma count_by_subreddit_ext (h h' : heap) ps d :
  (forall p, p ∈ ps -> h' p = h p) ->
  count_by_subreddit h' ps d = count_by_subreddit h ps d.
Proof.
  revert d. induction ps as [| p ps IH]; intros d Hsame.
  - reflexivity.
  - cbn [count_by_subreddit]. rewrite (Hsame p) by left.
    apply IH. intros q Hq. apply Hsame. right. exact Hq.
Qed.

Lemma report_current_stable (h h' : heap) rep :
  (forall p, p ∈ posts rep -> h' p = h p) ->
  report_current h rep -> report_current h' rep.
Proof.
  intros Hsame [Htick Hcounts]. split.
  - intros p Hp. rewrite (Hsame p Hp). apply Htick, Hp.
  - rewrite Hcounts. symmetry. apply count_by_subreddit_ext, Hsame.
Qed.

Section Current.
Context {CS : Type} (miner : Outside CS) (self : Self).

Lemma search_ticker_untouched ticker subs limit (s : State CS) (p : loc) :
  p ∉ result (search_ticker miner self ticker subs limit s) ->
  st_heap (final (search_ticker miner self ticker subs limit s)) p = st_heap s p.
Proof.
  rewrite search_ticker_result.
  unfold search_ticker. destruct (enabled self); cbn [negb].
  - apply search_loop_untouched.
  - reflexivity.
Qed.

Lemma search_ticker_ticker_tag ticker subs limit (s : State CS) (p : loc) :
  p ∈ result (search_ticker miner self ticker subs limit s) ->
  st_heap (final (search_ticker miner self ticker subs limit s)) p
    !! "ticker_searched" = Some (PyStr ticker).
Proof.
  rewrite search_ticker_result.
  unfold search_ticker. destruct (enabled self); cbn [negb].
  - apply search_loop_ticker_tag.
  - cbn. intros Hp. inversion Hp.
Qed.

Lemma sentiment_loop_current limit tickers results (s : State CS) :
  NoDup (provenance (log (sentiment_loop miner self limit tickers results s))).*2 ->
  map_Forall (fun _ rep =>
    report_current (st_heap s) rep /\
    forall p, p ∈ posts rep ->
      p ∉ (provenance (log (sentiment_loop miner self limit tickers results s))).*2)
    results ->
  map_Forall (fun _ rep =>
    report_current (st_heap (final (sentiment_loop miner self limit tickers results s)))
      rep)
    (result (sentiment_loop miner self limit tickers results s)).
Proof.
  revert results s. induction tickers as [| t rest IH]; intros results s.
  - cbn. intros _ Hall k rep Hk. apply (Hall k rep Hk).
  - rewrite sentiment_loop_cons. cbv zeta.
    rewrite log_after, result_after, final_after, provenance_app, fmap_app.
    intros Hnd Hall.
    apply list.NoDup_app in Hnd as (Hnd0 & Hdisj & Hndrest).
    apply IH; [exact Hndrest |].
    apply map_Forall_insert_2.
    + split.
      * split; [| reflexivity].
        intros p Hp. cbn [posts ticker report_of] in *.
        apply search_ticker_ticker_tag, Hp.
      * intros p Hp. cbn [posts report_of] in Hp.
        rewrite search_ticker_result in Hp. apply Hdisj, Hp.
    + intros k rep Hk. destruct (Hall k rep Hk) as [Hcur Hfresh]. split.
      * apply (report_current_stable (st_heap s)); [| exact Hcur].
        intros p Hp. apply search_ticker_untouched.
        rewrite search_ticker_result.
        intros Hin. apply (Hfresh p Hp). apply elem_of_app. left. exact Hin.
      * intros p Hp Hin. apply (Hfresh p Hp). apply elem_of_app. right. exact Hin.
Qed.
End Current.

(** X17.  When the collaborator never returns the same post object twice
    during a run of [get_sentiment_data], every report of the result still
    describes its posts when the run ends: each post carries the report's
    ticker in [ticker_searched], and [by_subreddit] counts the posts by the
    subreddit they carry. *)
Theorem reports_stay_current {CS} (miner : Outside CS) (self : Self)
  (tickers : list string) (limit : Z) (s : State CS) :
  let r := get_sentiment_data miner self tickers limit s in
  NoDup (provenance (log r)).*2 ->
  forall t rep,
    result r !! t = Some rep ->
    (forall p, p ∈ posts rep ->
       st_heap (final r) p !! "ticker_searched" = Some (PyStr (ticker rep))) /\
    by_subreddit rep = count_by_subreddit (st_heap (final r)) (posts rep) ∅.
Proof.
  cbv zeta. unfold get_sentiment_data. destruct (enabled self); cbn [negb].
  - intros Hnd t rep Hrep.
    refine (sentiment_loop_current miner self limit tickers ∅ s Hnd _ t rep Hrep).
    apply map_Forall_empty.
  - cbn. intros _ t rep Hrep. rewrite lookup_empty in Hrep. discriminate.
Qed.

Lemma reports_stay_current_witness :
  let r := get_sentiment_data fresh_miner (__init__ None test_config)
             ["TSLA"; "NVDA"] 5%Z fresh_state in
  exists rep,
    NoDup (provenance (log r)).*2 /\
    result r !! "TSLA" = Some rep /\
    posts rep = [0; 1] /\
    (forall p, p ∈ posts rep ->
       st_heap (final r) p !! "ticker_searched" = Some (PyStr (ticker rep))) /\
    by_subreddit rep = count_by_subreddit (st_heap (final r)) (posts rep) ∅.
Proof.
  cbv zeta.
  assert (Hnd : NoDup (provenance (log (get_sentiment_data fresh_miner
                         (__init__ None test_config) ["TSLA"; "NVDA"] 5%Z
                         fresh_state))).*2).
  { replace (provenance _).*2 with [0; 1; 2; 3] by (vm_compute; reflexivity).
    apply (bool_decide_unpack _). vm_compute. exact I. }
  eexists. split; [exact Hnd |]. split; [vm_compute; reflexivity |].
  split; [reflexivity |].
  eapply (reports_stay_current fresh_miner (__init__ None test_config)
            ["TSLA"; "NVDA"] 5%Z fresh_state Hnd "TSLA").
  vm_compute. reflexivity.
Defined.
End ReportsCurrent.
